(** * Type mover: import rewriting and path-alias resolution

    A shallow embedding of the refactoring engine of the TypeScript type
    mover extension:
    - [PathResolver], from [src/utils/pathResolver.ts]: the load of the
      tsconfig, path aliases and relative specifiers;
    - [ImportManager], from [src/utils/importManager.ts]: the scan for an
      existing import ([findExistingImportPath]), the changes of a move
      ([calculateChanges]), the edits of a file
      ([calculateEditsForDocument] with its two handlers and
      [addNewImport]) and their application ([updateImports]);
    - [FileManager], from [src/utils/fileManager.ts], and the [try] block
      of the [moveType] command.

    Conventions.
    - A JavaScript string is a [string]; every [ascii] stands for one code
      unit, so offsets, [startsWith] and the default [Array.prototype.sort]
      order (code-unit order, [String.leb]) are the ones of the program on
      texts whose code units are below 256.
    - A JavaScript exception or a rejected promise is the [Throw] outcome
      of [result]; asynchronous functions that touch the workspace live in
      the state-and-error monad [M].
    - The TypeScript parser, the file system probes of [ts.sys] and the
      editor's settings are collaborators of the program: they are taken
      as parameters ([createSourceFile], [ConfigHost]).
    - [path.*] is Node's POSIX implementation; the documents of the editor
      are texts whose lines end in a line feed, and a workspace edit is a
      transaction on the texts of the workspace ([Editor.transaction]). *)

From Stdlib Require Import String Ascii List Arith Bool Lia Sorted Permutation.
From stdpp Require Import base gmap strings list.

Open Scope string_scope.

(* ===================================================================== *)
(** ** JavaScript strings *)
(* ===================================================================== *)

Module Js.

(** [s.startsWith(p)] *)
Definition startsWith (s p : string) : bool := String.prefix p s.

(** [s.endsWith(p)] *)
Definition endsWith (s p : string) : bool :=
  let n := String.length s in
  let k := String.length p in
  (k <=? n)%nat && String.eqb (String.substring (n - k) k s) p.

(** The prefix of [s] without its last [k] code units. *)
Definition dropEnd (k : nat) (s : string) : string :=
  String.substring 0 (String.length s - k) s.

(** [parts.join(sep)] *)
Definition join (sep : string) (parts : list string) : string :=
  String.concat sep parts.

(** [s.split("/")] *)
Fixpoint splitSlash (s : string) : list string :=
  match s with
  | EmptyString => [EmptyString]
  | String c rest =>
      if Ascii.eqb c "/"
      then EmptyString :: splitSlash rest
      else match splitSlash rest with
           | [] => [String c EmptyString]
           | h :: t => String c h :: t
           end
  end.

(** Truthiness of a string: the empty string is falsy. *)
Definition truthy (s : string) : bool := negb (String.eqb s "").

(** [s.replace(/\*$/, '')]: one trailing star is removed. *)
Definition stripTrailingStar (s : string) : string :=
  if endsWith s "*" then dropEnd 1 s else s.

(** [s.replace(/\.(ts|tsx|vue)$/, '')]: the three suffixes exclude one
    another, so at most one alternative matches at the end. *)
Definition stripSourceExtension (s : string) : string :=
  if endsWith s ".ts" then dropEnd 3 s
  else if endsWith s ".tsx" then dropEnd 4 s
  else if endsWith s ".vue" then dropEnd 4 s
  else s.

(** White space of [trimStart] and [trimEnd] among the code units below
    128: tab, line feed, vertical tab, form feed, carriage return, space. *)
Definition isWhiteSpace (c : ascii) : bool :=
  let n := nat_of_ascii c in
  ((9 <=? n)%nat && (n <=? 13)%nat) || (n =? 32)%nat.

Fixpoint trimStart (s : string) : string :=
  match s with
  | EmptyString => EmptyString
  | String c rest => if isWhiteSpace c then trimStart rest else s
  end.

Fixpoint trimEnd (s : string) : string :=
  match s with
  | EmptyString => EmptyString
  | String c rest =>
      match trimEnd rest with
      | EmptyString => if isWhiteSpace c then EmptyString else String c EmptyString
      | kept => String c kept
      end
  end.

(** Stable insertion sort: the order [Array.prototype.sort] produces for
    a comparator that is a total preorder ([leb a b] says that [a] may
    stay in front of [b]). *)
Section Sort.
Context {A : Type} (leb : A -> A -> bool).

Fixpoint insertSorted (x : A) (l : list A) : list A :=
  match l with
  | [] => [x]
  | y :: rest => if leb x y then x :: l else y :: insertSorted x rest
  end.

Definition sortBy (l : list A) : list A :=
  fold_right insertSorted [] l.
End Sort.

(** [names.sort()] with the default comparator. *)
Definition sortStrings (names : list string) : list string :=
  sortBy String.leb names.

End Js.

(* ===================================================================== *)
(** ** Node's [path] module (POSIX) *)
(* ===================================================================== *)

Module Path.

Definition isAbsolute (p : string) : bool := Js.startsWith p "/".

(** [normalizeString]: the segments of a path with [.] and empty
    segments dropped and [..] resolved; [acc] is the stack of segments
    kept so far, innermost first. *)
Fixpoint normalizeSegments (allowAboveRoot : bool) (acc segs : list string)
  : list string :=
  match segs with
  | [] => rev acc
  | seg :: rest =>
      if String.eqb seg "" || String.eqb seg "." then
        normalizeSegments allowAboveRoot acc rest
      else if String.eqb seg ".." then
        match acc with
        | top :: below =>
            if String.eqb top ".."
            then normalizeSegments allowAboveRoot (seg :: acc) rest
            else normalizeSegments allowAboveRoot below rest
        | [] =>
            if allowAboveRoot
            then normalizeSegments allowAboveRoot [seg] rest
            else normalizeSegments allowAboveRoot [] rest
        end
      else normalizeSegments allowAboveRoot (seg :: acc) rest
  end.

Definition segments (allowAboveRoot : bool) (p : string) : list string :=
  normalizeSegments allowAboveRoot [] (Js.splitSlash p).

(** [path.normalize(p)] *)
Definition normalize (p : string) : string :=
  if String.eqb p "" then "."
  else
    let absolute := isAbsolute p in
    let trailing := Js.endsWith p "/" in
    let body := Js.join "/" (segments (negb absolute) p) in
    if String.eqb body "" then
      if absolute then "/" else if trailing then "./" else "."
    else
      let body := if trailing then body ++ "/" else body in
      if absolute then "/" ++ body else body.

(** [path.join(a, b)] *)
Definition join (a b : string) : string :=
  match Js.truthy a, Js.truthy b with
  | true, true => normalize (a ++ "/" ++ b)
  | true, false => normalize a
  | false, true => normalize b
  | false, false => "."
  end.

(** The right-to-left scan of [path.resolve]: arguments are prepended
    until an absolute one has been met. *)
Fixpoint resolveScan (reversed : list string) (acc : string) (absolute : bool)
  : string * bool :=
  match reversed with
  | [] => (acc, absolute)
  | p :: rest =>
      if absolute then (acc, absolute)
      else if String.eqb p "" then resolveScan rest acc absolute
      else resolveScan rest (p ++ "/" ++ acc) (isAbsolute p)
  end.

(** [path.resolve(...paths)] in a process whose working directory is
    [cwd]. *)
Definition resolve (cwd : string) (paths : list string) : string :=
  let '(joined, absolute) := resolveScan (rev paths) "" false in
  let '(joined, absolute) :=
    if absolute then (joined, absolute)
    else (cwd ++ "/" ++ joined, isAbsolute cwd) in
  let body := Js.join "/" (segments (negb absolute) joined) in
  if absolute then "/" ++ body
  else if String.eqb body "" then "." else body.

(** The segments two resolved paths do not share. *)
Fixpoint dropCommon (from to : list string) : list string * list string :=
  match from, to with
  | f :: from', t :: to' =>
      if String.eqb f t then dropCommon from' to' else (from, to)
  | _, _ => (from, to)
  end.

(** [path.relative(from, to)] *)
Definition relative (cwd from to : string) : string :=
  if String.eqb from to then ""
  else
    let from := resolve cwd [from] in
    let to := resolve cwd [to] in
    if String.eqb from to then ""
    else
      let '(up, down) := dropCommon (segments false from) (segments false to) in
      Js.join "/" (map (fun _ => "..") up ++ down).

(** The scan of [path.dirname] from the end of the path: [chars] is the
    path reversed without its first code unit, [matchedSlash] says that
    only slashes have been seen so far. The result is what remains in
    front of the slash that ends the directory part, reversed. *)
Fixpoint dirnameScan (chars : list ascii) (matchedSlash : bool)
  : option (list ascii) :=
  match chars with
  | [] => None
  | c :: rest =>
      if Ascii.eqb c "/" then
        if matchedSlash then dirnameScan rest matchedSlash else Some rest
      else dirnameScan rest false
  end.

(** [path.dirname(p)] *)
Definition dirname (p : string) : string :=
  match list_ascii_of_string p with
  | [] => "."
  | first :: tail =>
      let hasRoot := Ascii.eqb first "/" in
      match dirnameScan (rev tail) true with
      | None => if hasRoot then "/" else "."
      | Some [] => if hasRoot then "//" else String first EmptyString
      | Some kept => string_of_list_ascii (first :: rev kept)
      end
  end.

End Path.

(* ===================================================================== *)
(** ** Outcomes of a call *)
(* ===================================================================== *)

(** What a call can throw: a [TypeError] of the runtime, or the rejection
    of [openTextDocument] for a file that cannot be opened. *)
Inductive exn : Type :=
| TypeError
| CannotOpen (uri : string).

Inductive result (A : Type) : Type :=
| Ok (value : A)
| Throw (error : exn).

Arguments Ok {A} value.
Arguments Throw {A} error.

(* ===================================================================== *)
(** ** PathResolver *)
(* ===================================================================== *)

Module PathResolver.

(** The [paths] object of a tsconfig, as [Object.entries] enumerates it:
    keys in insertion order, each with its array of targets. *)
Definition PathsTable : Type := list (string * list string).

Record CompilerOptions : Type := {
  co_baseUrl : option string;
  co_paths : option PathsTable
}.

Record TsConfig : Type := {
  compilerOptions : option CompilerOptions
}.

(** What [ts.readConfigFile] hands back: an object with [error] set, an
    object with a [config] (absent when the file holds no object), or an
    exception. *)
Inductive ReadConfigResult : Type :=
| ReadError
| ReadConfig (config : option TsConfig)
| ReadThrows.

(** The collaborators [loadTsConfig] consults: the [typeRefactor.tsconfig]
    setting, [ts.findConfigFile], [ts.sys.fileExists] and
    [ts.readConfigFile]. *)
Record ConfigHost : Type := {
  tsconfigSetting : option string;
  findConfigFile : string -> option string;
  fileExists : string -> bool;
  readConfigFile : string -> ReadConfigResult
}.

(** The private fields of the class; [None] is [undefined]. *)
Record t : Type := {
  baseUrl : option string;
  paths : option PathsTable;
  configDir : option string
}.

Definition unconfigured : t :=
  {| baseUrl := None; paths := None; configDir := None |}.

(** [object?.field]: [undefined] when the object is. *)
Definition optionalChain {A B : Type} (object : option A)
    (field : A -> option B) : option B :=
  match object with
  | Some o => field o
  | None => None
  end.

(** [value || fallback] on an optional string. *)
Definition orElse (value : option string) (fallback : string) : string :=
  match value with
  | Some s => if Js.truthy s then s else fallback
  | None => fallback
  end.

(** [const configPath = configRelativePath ? path.join(...) :
    ts.findConfigFile(...)] *)
Definition configPathFor (host : ConfigHost) (workspaceRoot : string)
  : option string :=
  match tsconfigSetting host with
  | Some configRelativePath =>
      if Js.truthy configRelativePath
      then Some (Path.join workspaceRoot configRelativePath)
      else findConfigFile host workspaceRoot
  | None => findConfigFile host workspaceRoot
  end.

Definition loadTsConfig (host : ConfigHost) (workspaceRoot : string) : t :=
  if negb (Js.truthy workspaceRoot) then unconfigured
  else
    match configPathFor host workspaceRoot with
    | None => unconfigured
    | Some configPath =>
        if negb (Js.truthy configPath) || negb (fileExists host configPath)
        then unconfigured
        else
          match readConfigFile host configPath with
          | ReadThrows => unconfigured
          | ReadError => unconfigured
          | ReadConfig None =>
              (* [configDir] is assigned before the access that throws *)
              {| baseUrl := None; paths := None;
                 configDir := Some (Path.dirname configPath) |}
          | ReadConfig (Some config) =>
              {| baseUrl :=
                   Some (orElse (optionalChain (compilerOptions config) co_baseUrl) ".");
                 paths := optionalChain (compilerOptions config) co_paths;
                 configDir := Some (Path.dirname configPath) |}
          end
    end.

(** [new PathResolver(workspaceRoot)] *)
Definition new (host : ConfigHost) (workspaceRoot : string) : t :=
  loadTsConfig host workspaceRoot.

Section WithWorkingDirectory.
(** [process.cwd()], which [path.resolve] falls back on. *)
Variable cwd : string.

(** The [for ... of Object.entries(this.paths)] loop. *)
Fixpoint matchEntries (absoluteBaseUrl absoluteFilePath : string)
    (entries : PathsTable) : result (option string) :=
  match entries with
  | [] => Ok None
  | (aliasPattern, aliasTargets) :: rest =>
      let aliasPrefix := Js.stripTrailingStar aliasPattern in
      match aliasTargets with
      | [] => Throw TypeError
      | firstTarget :: _ =>
          let aliasTargetPath := Js.stripTrailingStar firstTarget in
          let absoluteAliasPath :=
            Path.resolve cwd [absoluteBaseUrl; aliasTargetPath] in
          if Js.startsWith absoluteFilePath absoluteAliasPath then
            let relativeToAlias :=
              Path.relative cwd absoluteAliasPath absoluteFilePath in
            Ok (Some (Js.stripSourceExtension (aliasPrefix ++ relativeToAlias)))
          else matchEntries absoluteBaseUrl absoluteFilePath rest
      end
  end.

Definition tryMatchPathAlias (self : t) (absoluteFilePath : string)
  : result (option string) :=
  match paths self, baseUrl self, configDir self with
  | Some paths, Some baseUrl, Some configDir =>
      if Js.truthy baseUrl && Js.truthy configDir then
        let absoluteBaseUrl := Path.resolve cwd [configDir; baseUrl] in
        matchEntries absoluteBaseUrl absoluteFilePath paths
      else Ok None
  | _, _, _ => Ok None
  end.

(** The fall-back of [resolveImportPath]: a path relative to the
    directory of the importing file. *)
Definition relativeSpecifier (fromPath toPath : string) : string :=
  let relativePath := Path.relative cwd (Path.dirname fromPath) toPath in
  if Js.startsWith relativePath "." then relativePath
  else "./" ++ relativePath.

Definition resolveImportPath (self : t) (fromPath toPath : string)
  : result string :=
  match tryMatchPathAlias self toPath with
  | Throw e => Throw e
  | Ok (Some aliasPath) =>
      if Js.truthy aliasPath then Ok aliasPath
      else Ok (relativeSpecifier fromPath toPath)
  | Ok None => Ok (relativeSpecifier fromPath toPath)
  end.

End WithWorkingDirectory.

End PathResolver.

(* ===================================================================== *)
(** ** Syntax trees and documents *)
(* ===================================================================== *)

(** An element of a named-import list: [name] is the bound identifier,
    [propertyName] the imported one in [propertyName as name]. *)
Record ImportSpecifier : Type := {
  propertyName : option string;
  name : string
}.

Inductive NamedImportBindings : Type :=
| NamespaceImport (alias : string)
| NamedImports (elements : list ImportSpecifier).

Record ImportClause : Type := {
  isTypeOnly : bool;
  defaultBinding : option string;
  namedBindings : option NamedImportBindings
}.

Record ImportDeclaration : Type := {
  importClause : option ImportClause;
  moduleSpecifier : string;
  getStart : nat;
  getEnd : nat
}.

(** A child of the source file that [ts.forEachChild] visits. *)
Inductive Statement : Type :=
| ImportDecl (node : ImportDeclaration)
| OtherStatement (start stop : nat).

Definition SourceFile : Type := list Statement.

Record Position : Type := { line : nat; character : nat }.

Record Range : Type := { start : Position; stop : Position }.

(** [new vscode.Range(startLine, startCharacter, endLine, endCharacter)] *)
Definition mkRange (l1 c1 l2 c2 : nat) : Range :=
  {| start := {| line := l1; character := c1 |};
     stop := {| line := l2; character := c2 |} |}.

(** [new vscode.Range(start, end)] *)
Definition rangeOf (a b : Position) : Range := {| start := a; stop := b |}.

Definition LF : ascii := "010"%char.

(** The line-feed string. *)
Definition nl : string := String LF EmptyString.

(** A string between double quotes. *)
Definition quoted (s : string) : string :=
  String "034"%char EmptyString ++ s ++ String "034"%char EmptyString.

Module TextDocument.

Record t : Type := {
  fileName : string;
  getText : string
}.

Fixpoint positionFrom (text : string) (offset line character : nat) : Position :=
  match offset, text with
  | S remaining, String c rest =>
      if Ascii.eqb c LF
      then positionFrom rest remaining (S line) 0
      else positionFrom rest remaining line (S character)
  | _, _ => {| line := line; character := character |}
  end.

(** [document.positionAt(offset)]; an offset past the end is the end. *)
Definition positionAt (document : t) (offset : nat) : Position :=
  positionFrom (getText document) offset 0 0.

(** The offset of a position in a text; a line past the last one is the
    end of the text, a character past the end of its line is that end. *)
Fixpoint offsetIn (text : string) (line character : nat) : nat :=
  match text with
  | EmptyString => 0
  | String c rest =>
      match line with
      | S above =>
          if Ascii.eqb c LF
          then S (offsetIn rest above character)
          else S (offsetIn rest line character)
      | 0 =>
          match character with
          | 0 => 0
          | S before =>
              if Ascii.eqb c LF then 0 else S (offsetIn rest 0 before)
          end
      end
  end.

Definition offsetAt (document : t) (position : Position) : nat :=
  offsetIn (getText document) (line position) (character position).

(** [document.lineAt(document.lineCount - 1).range.end] *)
Definition lastLineEnd (document : t) : Position :=
  positionAt document (String.length (getText document)).

End TextDocument.

(* ===================================================================== *)
(** ** The workspace: documents, edits, and the monad of async calls *)
(* ===================================================================== *)

(** The text of every file of the workspace, by [uri.fsPath]. *)
Abbreviation Workspace := (gmap string string).

(** One entry of a [vscode.WorkspaceEdit]. [edit.delete(uri, range)] is a
    replacement by the empty text, [edit.insert(uri, position, text)] a
    replacement of the empty range at [position]. *)
Inductive EditOp : Type :=
| Replace (uri : string) (range : Range) (newText : string)
| CreateFile (uri : string) (overwrite : bool).

Definition WorkspaceEdit : Type := list EditOp.

Module Editor.

(** A text edit as offsets into the text it applies to. *)
Record Span : Type := { from : nat; to : nat; text : string }.

Definition spanOf (content : string) (edit : Range * string) : Span :=
  let offsetOf (p : Position) :=
    TextDocument.offsetIn content (line p) (character p) in
  let a := offsetOf (start edit.1) in
  let b := offsetOf (stop edit.1) in
  {| from := Nat.min a b; to := Nat.max a b; text := edit.2 |}.

(** Spans in ascending order may touch but not overlap. *)
Fixpoint disjointFrom (cursor : nat) (spans : list Span) : bool :=
  match spans with
  | [] => true
  | s :: rest => (cursor <=? from s)%nat && disjointFrom (to s) rest
  end.

(** The text between the spans is kept, every span is replaced. *)
Fixpoint rebuild (content : string) (cursor : nat) (spans : list Span) : string :=
  match spans with
  | [] => String.substring cursor (String.length content - cursor) content
  | s :: rest =>
      String.substring cursor (from s - cursor) content
      ++ text s ++ rebuild content (to s) rest
  end.

(** All text edits of one file apply to its text as it was before the
    transaction; overlapping edits make the transaction fail. *)
Definition applyTextEdits (content : string) (edits : list (Range * string))
  : option string :=
  let spans :=
    Js.sortBy (fun a b => (from a <=? from b)%nat) (map (spanOf content) edits) in
  if disjointFrom 0 spans then Some (rebuild content 0 spans) else None.

Definition textEditsFor (uri : string) (ops : WorkspaceEdit)
  : list (Range * string) :=
  flat_map (fun op =>
    match op with
    | Replace u range newText => if String.eqb u uri then [(range, newText)] else []
    | CreateFile _ _ => []
    end) ops.

Definition editedUris (ops : WorkspaceEdit) : list string :=
  remove_dups (flat_map (fun op =>
    match op with
    | Replace u _ _ => [u]
    | CreateFile _ _ => []
    end) ops).

Fixpoint createFiles (ops : WorkspaceEdit) (ws : Workspace) : option Workspace :=
  match ops with
  | [] => Some ws
  | CreateFile uri overwrite :: rest =>
      match ws !! uri with
      | Some _ =>
          if overwrite then createFiles rest (<[uri := ""]> ws) else None
      | None => createFiles rest (<[uri := ""]> ws)
      end
  | Replace _ _ _ :: rest => createFiles rest ws
  end.

Fixpoint editFiles (uris : list string) (ops : WorkspaceEdit) (ws : Workspace)
  : option Workspace :=
  match uris with
  | [] => Some ws
  | uri :: rest =>
      match ws !! uri with
      | None => None
      | Some content =>
          match applyTextEdits content (textEditsFor uri ops) with
          | None => None
          | Some content' => editFiles rest ops (<[uri := content']> ws)
          end
      end
  end.

(** The transaction of [vscode.workspace.applyEdit]: all of it or none. *)
Definition transaction (ops : WorkspaceEdit) (ws : Workspace) : option Workspace :=
  match createFiles ops ws with
  | None => None
  | Some created => editFiles (editedUris ops) ops created
  end.

End Editor.

(** An asynchronous call: it reads and may change the workspace, and
    resolves to a value or rejects. *)
Definition M (A : Type) : Type := Workspace -> result A * Workspace.

Definition ret {A : Type} (a : A) : M A := fun ws => (Ok a, ws).

Definition bind {A B : Type} (c : M A) (k : A -> M B) : M B :=
  fun ws =>
    match c ws with
    | (Ok a, ws') => k a ws'
    | (Throw e, ws') => (Throw e, ws')
    end.

Notation "'let*' x ':=' c 'in' k" := (bind c (fun x => k))
  (at level 10, x name, c at level 100, k at level 200).

(** [try { body } catch { handler }] *)
Definition tryCatch {A : Type} (body : M A) (handler : exn -> M A) : M A :=
  fun ws =>
    match body ws with
    | (Ok a, ws') => (Ok a, ws')
    | (Throw e, ws') => handler e ws'
    end.

(** A synchronous call whose exception rejects the promise. *)
Definition lift {A : Type} (r : result A) : M A := fun ws => (r, ws).

(** [vscode.workspace.openTextDocument(uri)] *)
Definition openTextDocument (uri : string) : M TextDocument.t :=
  fun ws =>
    match ws !! uri with
    | Some content =>
        (Ok {| TextDocument.fileName := uri; TextDocument.getText := content |}, ws)
    | None => (Throw (CannotOpen uri), ws)
    end.

(** [vscode.workspace.applyEdit(edit)] resolves to whether the edit was
    applied. *)
Definition applyEdit (edit : WorkspaceEdit) : M bool :=
  fun ws =>
    match Editor.transaction edit ws with
    | Some ws' => (Ok true, ws')
    | None => (Ok false, ws)
    end.

(** [for (const x of xs) { await body(x) }] *)
Fixpoint forEach {A : Type} (xs : list A) (body : A -> M unit) : M unit :=
  match xs with
  | [] => ret tt
  | x :: rest => let* _ := body x in forEach rest body
  end.

(* ===================================================================== *)
(** ** ImportManager *)
(* ===================================================================== *)

(** The moved declaration as the program sees it: the node of the syntax
    tree the selection was found in, whose text is the one of that tree. *)
Module Node.
Record t : Type := { getStart : nat; getEnd : nat; getText : string }.
End Node.

Module TypeInfo.
Record t : Type := { name : string; node : Node.t }.
End TypeInfo.

Module Location.
Record t : Type := { uri : string; range : Range }.
End Location.

Module ImportChange.
Record t : Type := {
  uri : string;
  oldImportPath : string;
  newImportPath : string;
  typeName : string;
  isTypeOnly : bool
}.
End ImportChange.

Module Changes.
Record t : Type := {
  importChanges : list ImportChange.t;
  typeContent : string
}.
End Changes.

Module ImportEdit.
Record t : Type := { range : Range; newText : string }.
End ImportEdit.

(** The value [findExistingImportPath] returns. *)
Module ExistingImport.
Record t : Type := { path : string; isTypeOnly : bool }.
End ExistingImport.

Module ImportManager.

Record t : Type := { pathResolver : PathResolver.t }.

(** The constructor: the resolver is loaded for the first workspace
    folder, or for the empty root when there is none. *)
Definition new (host : PathResolver.ConfigHost) (workspaceFolders : list string) : t :=
  let workspaceRoot := PathResolver.orElse (head workspaceFolders) "" in
  {| pathResolver := PathResolver.new host workspaceRoot |}.

Definition getNamedImports (node : ImportDeclaration)
  : option (list ImportSpecifier) :=
  match PathResolver.optionalChain (importClause node) namedBindings with
  | Some (NamedImports elements) => Some elements
  | _ => None
  end.

(** [elements.some(el => el.name.text === typeName)] *)
Definition bindsName (typeName : string) (elements : list ImportSpecifier) : bool :=
  existsb (fun el => String.eqb (name el) typeName) elements.

(** [node.importClause?.isTypeOnly || false] *)
Definition clauseIsTypeOnly (node : ImportDeclaration) : bool :=
  match importClause node with
  | Some clause => isTypeOnly clause
  | None => false
  end.

(** The callback [findExistingImportPath] hands to [ts.forEachChild]; it
    never returns a value, so every child is visited. *)
Definition findExistingImportStep (typeName : string)
    (result : ExistingImport.t) (node : Statement) : ExistingImport.t :=
  match node with
  | OtherStatement _ _ => result
  | ImportDecl node =>
      match getNamedImports node with
      | None => result
      | Some namedImports =>
          if bindsName typeName namedImports then
            {| ExistingImport.path := moduleSpecifier node;
               ExistingImport.isTypeOnly := clauseIsTypeOnly node |}
          else result
      end
  end.

Definition findExistingImportPath (refSourceFile : SourceFile)
    (typeInfo : TypeInfo.t) : ExistingImport.t :=
  fold_left (findExistingImportStep (TypeInfo.name typeInfo)) refSourceFile
    {| ExistingImport.path := ""; ExistingImport.isTypeOnly := false |}.

Definition createEdit (start stop : nat) (newText : string)
    (document : TextDocument.t) : ImportEdit.t :=
  {| ImportEdit.range :=
       rangeOf (TextDocument.positionAt document start)
               (TextDocument.positionAt document stop);
     ImportEdit.newText := newText |}.

Definition typeKeyword (typeOnly : bool) : string :=
  if typeOnly then "type " else "".

(** [`import ${typeKeyword}{ ${names} } from "${specifier}";`] *)
Definition importStatement (keyword names specifier : string) : string :=
  "import " ++ keyword ++ "{ " ++ names ++ " } from " ++ quoted specifier ++ ";".

(** The array is passed by reference and pushed to: the function maps
    the edits collected so far to the edits collected after the call. *)
Definition handleOldImportPath (node : ImportDeclaration)
    (document : TextDocument.t) (change : ImportChange.t)
    (edits : list ImportEdit.t) : list ImportEdit.t :=
  match importClause node with
  | None => edits
  | Some clause =>
      match namedBindings clause with
      | Some (NamedImports elements) =>
          let typeName := ImportChange.typeName change in
          let onlyOurType :=
            match elements with
            | [el] => String.eqb (name el) typeName
            | _ => false
            end in
          if onlyOurType then
            edits ++ [createEdit (getStart node) (getEnd node) "" document]
          else if bindsName typeName elements then
            let remainingTypes :=
              Js.join ", "
                (map name
                   (List.filter (fun el => negb (String.eqb (name el) typeName))
                      elements)) in
            let keyword :=
              typeKeyword (isTypeOnly clause || ImportChange.isTypeOnly change) in
            let newImport :=
              importStatement keyword remainingTypes (moduleSpecifier node) in
            edits ++ [createEdit (getStart node) (getEnd node) newImport document]
          else edits
      | _ => edits
      end
  end.

Definition handleNewImportPath (node : ImportDeclaration)
    (document : TextDocument.t) (change : ImportChange.t)
    (edits : list ImportEdit.t) : list ImportEdit.t :=
  match importClause node with
  | None => edits
  | Some clause =>
      match namedBindings clause with
      | Some (NamedImports elements) =>
          let typeName := ImportChange.typeName change in
          if bindsName typeName elements then edits
          else
            let existingTypes := (map name elements ++ [typeName])%list in
            let sortedTypes := Js.join ", " (Js.sortStrings existingTypes) in
            let shouldBeTypeOnly :=
              isTypeOnly clause || ImportChange.isTypeOnly change in
            let newImport :=
              importStatement (typeKeyword shouldBeTypeOnly) sortedTypes
                (moduleSpecifier node) in
            edits ++ [createEdit (getStart node) (getEnd node) newImport document]
      | _ => edits
      end
  end.

Definition addNewImport (lastImportPos : nat) (document : TextDocument.t)
    (change : ImportChange.t) (edits : list ImportEdit.t) : list ImportEdit.t :=
  let statement :=
    importStatement (typeKeyword (ImportChange.isTypeOnly change))
      (ImportChange.typeName change) (ImportChange.newImportPath change) ++ nl in
  let pos := line (TextDocument.positionAt document lastImportPos) + 1 in
  edits ++ [{| ImportEdit.range := mkRange pos 0 pos 0;
               ImportEdit.newText := statement |}].

(** The three variables the scan of [calculateEditsForDocument] updates. *)
Record Scan : Type := {
  editsToApply : list ImportEdit.t;
  hasExistingImport : bool;
  lastImportPos : nat
}.

Definition scanStep (document : TextDocument.t) (change : ImportChange.t)
    (scan : Scan) (node : Statement) : Scan :=
  match node with
  | OtherStatement _ _ => scan
  | ImportDecl node =>
      let importPath := moduleSpecifier node in
      if String.eqb importPath (ImportChange.oldImportPath change) then
        {| editsToApply := handleOldImportPath node document change (editsToApply scan);
           hasExistingImport := hasExistingImport scan;
           lastImportPos := getEnd node |}
      else if String.eqb importPath (ImportChange.newImportPath change) then
        {| editsToApply := handleNewImportPath node document change (editsToApply scan);
           hasExistingImport := true;
           lastImportPos := getEnd node |}
      else
        {| editsToApply := editsToApply scan;
           hasExistingImport := hasExistingImport scan;
           lastImportPos := getEnd node |}
  end.

(** The comparator [(a, b) => b.range.start.line - a.range.start.line]:
    [a] stays in front of [b] when its line is not above. *)
Definition laterLineFirst (a b : ImportEdit.t) : bool :=
  (line (start (ImportEdit.range b)) <=? line (start (ImportEdit.range a)))%nat.

Section WithParser.
(** [ts.createSourceFile(fileName, text, ...)], as the children of the
    source file. *)
Variable createSourceFile : string -> string -> SourceFile.

Definition scanDocument (document : TextDocument.t) (change : ImportChange.t) : Scan :=
  fold_left (scanStep document change)
    (createSourceFile (TextDocument.fileName document) (TextDocument.getText document))
    {| editsToApply := []; hasExistingImport := false; lastImportPos := 0 |}.

Definition calculateEditsForDocument (document : TextDocument.t)
    (change : ImportChange.t) : list ImportEdit.t :=
  let scan := scanDocument document change in
  let edits :=
    if hasExistingImport scan then editsToApply scan
    else addNewImport (lastImportPos scan) document change (editsToApply scan) in
  Js.sortBy laterLineFirst edits.

Definition applyEdits (uri : string) (edits : list ImportEdit.t) : M unit :=
  let edit :=
    map (fun e => Replace uri (ImportEdit.range e) (ImportEdit.newText e)) edits in
  let* _ := applyEdit edit in
  ret tt.

Definition updateImports (changes : Changes.t) : M unit :=
  forEach (Changes.importChanges changes) (fun change =>
    let* document := openTextDocument (ImportChange.uri change) in
    let edits := calculateEditsForDocument document change in
    applyEdits (ImportChange.uri change) edits).

Variable cwd : string.

(** The body of the loop of [calculateChanges] for one reference:
    the import changes collected so far, after this reference. *)
Definition calculateChange (self : t) (typeInfo : TypeInfo.t)
    (destinationUri : string) (importChanges : list ImportChange.t)
    (ref : Location.t) : M (list ImportChange.t) :=
  let* refDocument := openTextDocument (Location.uri ref) in
  let refText := TextDocument.getText refDocument in
  let refSourceFile := createSourceFile (Location.uri ref) refText in
  let existing := findExistingImportPath refSourceFile typeInfo in
  let oldImportPath := ExistingImport.path existing in
  if negb (Js.truthy oldImportPath) then ret importChanges
  else
    let refPath := Location.uri ref in
    let destPath := destinationUri in
    let* aliasPath :=
      lift (PathResolver.tryMatchPathAlias cwd (pathResolver self) destPath) in
    let* newImportPath :=
      match aliasPath with
      | Some aliasPath =>
          if Js.truthy aliasPath then ret aliasPath
          else
            lift (PathResolver.resolveImportPath cwd (pathResolver self)
                    refPath destPath)
      | None =>
          lift (PathResolver.resolveImportPath cwd (pathResolver self)
                  refPath destPath)
      end in
    ret (importChanges ++
           [{| ImportChange.uri := Location.uri ref;
               ImportChange.oldImportPath := oldImportPath;
               ImportChange.newImportPath := newImportPath;
               ImportChange.typeName := TypeInfo.name typeInfo;
               ImportChange.isTypeOnly := ExistingImport.isTypeOnly existing |}])%list.

Fixpoint calculateChangesLoop (self : t) (typeInfo : TypeInfo.t)
    (destinationUri : string) (references : list Location.t)
    (importChanges : list ImportChange.t) : M (list ImportChange.t) :=
  match references with
  | [] => ret importChanges
  | ref :: rest =>
      let* importChanges :=
        calculateChange self typeInfo destinationUri importChanges ref in
      calculateChangesLoop self typeInfo destinationUri rest importChanges
  end.

Definition calculateChanges (self : t) (typeInfo : TypeInfo.t)
    (sourceUri destinationUri : string) (references : list Location.t)
  : M Changes.t :=
  let* importChanges :=
    calculateChangesLoop self typeInfo destinationUri references [] in
  ret {| Changes.importChanges := importChanges;
         Changes.typeContent := Node.getText (TypeInfo.node typeInfo) |}.

End WithParser.

End ImportManager.

(* ===================================================================== *)
(** ** The earlier revision of the rewriter *)
(* ===================================================================== *)

(** [src/unnamed/part_004] keeps an earlier revision of the class, with
    the scans of [calculateChanges] and [updateImports] written inline.
    Where it differs from the current one it is embedded here: the
    statements it writes take their keyword from the declaration alone and
    have single quotes, and the flag of a change is the one of the last
    import clause of the file. *)
Module Earlier.

Definition importStatement (keyword names specifier : string) : string :=
  "import " ++ keyword ++ "{ " ++ names ++ " } from '" ++ specifier ++ "';".

(** The callback of the scan of [updateImports]. *)
Definition scanStep (document : TextDocument.t) (change : ImportChange.t)
    (scan : ImportManager.Scan) (node : Statement) : ImportManager.Scan :=
  match node with
  | OtherStatement _ _ => scan
  | ImportDecl node =>
      let importPath := moduleSpecifier node in
      let typeName := ImportChange.typeName change in
      let edits := ImportManager.editsToApply scan in
      let keyword :=
        ImportManager.typeKeyword (ImportManager.clauseIsTypeOnly node) in
      let replaceBy newText :=
        (edits ++ [ImportManager.createEdit (getStart node) (getEnd node)
                     newText document])%list in
      if String.eqb importPath (ImportChange.oldImportPath change) then
        {| ImportManager.editsToApply :=
             match ImportManager.getNamedImports node with
             | Some elements =>
                 if match elements with
                    | [el] => String.eqb (name el) typeName
                    | _ => false
                    end
                 then replaceBy ""
                 else if ImportManager.bindsName typeName elements then
                   replaceBy
                     (importStatement keyword
                        (Js.join ", "
                           (map name
                              (List.filter
                                 (fun el => negb (String.eqb (name el) typeName))
                                 elements)))
                        importPath)
                 else edits
             | None => edits
             end;
           ImportManager.hasExistingImport := ImportManager.hasExistingImport scan;
           ImportManager.lastImportPos := getEnd node |}
      else if String.eqb importPath (ImportChange.newImportPath change) then
        {| ImportManager.editsToApply :=
             match ImportManager.getNamedImports node with
             | Some elements =>
                 if ImportManager.bindsName typeName elements then edits
                 else
                   replaceBy
                     (importStatement keyword
                        (Js.join ", "
                           (Js.sortStrings (map name elements ++ [typeName])%list))
                        importPath)
             | None => edits
             end;
           ImportManager.hasExistingImport := true;
           ImportManager.lastImportPos := getEnd node |}
      else
        {| ImportManager.editsToApply := edits;
           ImportManager.hasExistingImport := ImportManager.hasExistingImport scan;
           ImportManager.lastImportPos := getEnd node |}
  end.

(** The callback of the scan of [calculateChanges]: [isTypeOnly] is
    assigned at every import clause, [oldImportPath] at the clauses that
    bind the type name. *)
Definition existingImportStep (typeName : string)
    (found : ExistingImport.t) (node : Statement) : ExistingImport.t :=
  match node with
  | OtherStatement _ _ => found
  | ImportDecl node =>
      match importClause node with
      | None => found
      | Some clause =>
          {| ExistingImport.path :=
               match namedBindings clause with
               | Some (NamedImports elements) =>
                   if ImportManager.bindsName typeName elements
                   then moduleSpecifier node
                   else ExistingImport.path found
               | _ => ExistingImport.path found
               end;
             ExistingImport.isTypeOnly := isTypeOnly clause |}
      end
  end.

End Earlier.

(* ===================================================================== *)
(** ** FileManager and the move command *)
(* ===================================================================== *)

Module FileManager.

Definition createDestinationFile (destinationUri content : string) : M unit :=
  let* edit :=
    tryCatch
      (let* existingDocument := openTextDocument destinationUri in
       let existingContent := TextDocument.getText existingDocument in
       let newContent :=
         Js.trimEnd existingContent ++ nl ++ nl ++ Js.trimStart content in
       let fullRange :=
         rangeOf {| line := 0; character := 0 |}
                 (TextDocument.lastLineEnd existingDocument) in
       ret [Replace destinationUri fullRange newContent])
      (fun _ =>
         ret [CreateFile destinationUri true;
              Replace destinationUri (mkRange 0 0 0 0) content]) in
  let* _ := applyEdit edit in
  ret tt.

Definition deleteTypeFromSource (sourceUri : string) (node : Node.t) : M unit :=
  let* document := openTextDocument sourceUri in
  let start := TextDocument.positionAt document (Node.getStart node) in
  let stop := TextDocument.positionAt document (Node.getEnd node) in
  let* _ := applyEdit [Replace sourceUri (rangeOf start stop) ""] in
  ret tt.

End FileManager.

Module MoveType.

(** How the command ends: with the success message or with the message
    of the failure it caught. *)
Inductive Outcome : Type :=
| Moved
| Failed (error : exn).

Section WithParser.
Variable createSourceFile : string -> string -> SourceFile.
Variable cwd : string.

(** The [try] block of [moveType] once the type, the destination and
    the references are known: [document] is the active document as it
    was when the command started. The dependencies computed first are
    not used, and saving the documents does not change their text. *)
Definition moveType (importManager : ImportManager.t)
    (selectedType : TypeInfo.t) (document : TextDocument.t)
    (destinationUri : string) (references : list Location.t) : M Outcome :=
  tryCatch
    (let node := TypeInfo.node selectedType in
     let sourceUri := TextDocument.fileName document in
     let* _ :=
       applyEdit
         [Replace sourceUri
            (rangeOf (TextDocument.positionAt document (Node.getStart node))
                     (TextDocument.positionAt document (Node.getEnd node)))
            ""] in
     let* changes :=
       ImportManager.calculateChanges createSourceFile cwd importManager
         selectedType sourceUri destinationUri references in
     let* _ :=
       FileManager.createDestinationFile destinationUri (Node.getText node) in
     let* _ := ImportManager.updateImports createSourceFile changes in
     ret Moved)
    (fun error => ret (Failed error)).

End WithParser.

End MoveType.

(* ===================================================================== *)
(** ** Vocabulary of the statements *)
(* ===================================================================== *)

Module Spec.


(** An import statement carries the [type] keyword. *)
Definition isTypeOnlyImport (statement : string) : bool :=
  Js.startsWith statement "import type ".

(** A child of the source file is an import declaration with a named
    import list that binds [typeName]. *)
Definition bindsIn (typeName : string) (node : Statement) : bool :=
  match node with
  | ImportDecl node =>
      match ImportManager.getNamedImports node with
      | Some elements => ImportManager.bindsName typeName elements
      | None => false
      end
  | OtherStatement _ _ => false
  end.

Definition isImport (node : Statement) : bool :=
  match node with
  | ImportDecl _ => true
  | OtherStatement _ _ => false
  end.

Definition initialScan : ImportManager.Scan :=
  {| ImportManager.editsToApply := [];
     ImportManager.hasExistingImport := false;
     ImportManager.lastImportPos := 0 |}.

(** The edits one visit of the scan pushes. *)
Definition stepEdits (document : TextDocument.t) (change : ImportChange.t)
    (node : Statement) : list ImportEdit.t :=
  ImportManager.editsToApply (ImportManager.scanStep document change initialScan node).

(** The visit takes the branch that sets [hasExistingImport]. *)
Definition reachesNewBranch (change : ImportChange.t) (node : Statement) : bool :=
  match node with
  | ImportDecl node =>
      negb (String.eqb (moduleSpecifier node) (ImportChange.oldImportPath change))
      && String.eqb (moduleSpecifier node) (ImportChange.newImportPath change)
  | OtherStatement _ _ => false
  end.

(** The end offset of the last import declaration, [fallback] without one. *)
Definition lastImportEnd (fallback : nat) (sourceFile : SourceFile) : nat :=
  fold_left (fun pos node =>
               match node with
               | ImportDecl node => getEnd node
               | OtherStatement _ _ => pos
               end) sourceFile fallback.

(** The range of a node in a document. *)
Definition nodeRange (document : TextDocument.t) (node : ImportDeclaration) : Range :=
  rangeOf (TextDocument.positionAt document (getStart node))
          (TextDocument.positionAt document (getEnd node)).



(** The directory an alias target stands for: the target without its
    trailing star, resolved against the base URL, itself resolved against
    the directory of the configuration file. *)
Definition aliasDirectory (cwd configDir baseUrl target : string) : string :=
  Path.resolve cwd [Path.resolve cwd [configDir; baseUrl]; Js.stripTrailingStar target].

(** The ways the configuration can fail to load: no workspace root, no
    configuration file found, a file that does not exist, a read error,
    an exception while reading or parsing, a file without a configuration
    object, or a configuration without the [paths] the aliases come
    from. *)
Inductive LoadFailure (host : PathResolver.ConfigHost) (workspaceRoot : string) : Prop :=
| NoWorkspaceRoot :
    workspaceRoot = "" -> LoadFailure host workspaceRoot
| NoConfigFile :
    PathResolver.configPathFor host workspaceRoot = None ->
    LoadFailure host workspaceRoot
| MissingConfigFile configPath :
    PathResolver.configPathFor host workspaceRoot = Some configPath ->
    PathResolver.fileExists host configPath = false ->
    LoadFailure host workspaceRoot
| ReadFailure configPath :
    PathResolver.configPathFor host workspaceRoot = Some configPath ->
    PathResolver.readConfigFile host configPath = PathResolver.ReadError ->
    LoadFailure host workspaceRoot
| ParseFailure configPath :
    PathResolver.configPathFor host workspaceRoot = Some configPath ->
    PathResolver.readConfigFile host configPath = PathResolver.ReadThrows ->
    LoadFailure host workspaceRoot
| NoConfigObject configPath :
    PathResolver.configPathFor host workspaceRoot = Some configPath ->
    PathResolver.readConfigFile host configPath = PathResolver.ReadConfig None ->
    LoadFailure host workspaceRoot
| MissingFields configPath config :
    PathResolver.configPathFor host workspaceRoot = Some configPath ->
    PathResolver.readConfigFile host configPath
    = PathResolver.ReadConfig (Some config) ->
    PathResolver.optionalChain (PathResolver.compilerOptions config)
      PathResolver.co_paths = None ->
    LoadFailure host workspaceRoot.

End Spec.

(* ===================================================================== *)
(** ** Concrete files and changes *)
(* ===================================================================== *)

Module Sample.

(** [import { names } from "specifier"], or [import type { ... }], at
    the offsets [a] to [b]. *)
Definition importOf (typeOnly : bool) (names : list string) (specifier : string)
    (a b : nat) : ImportDeclaration :=
  {| importClause :=
       Some {| isTypeOnly := typeOnly;
               defaultBinding := None;
               namedBindings :=
                 Some (NamedImports
                         (map (fun n => {| propertyName := None; name := n |}) names)) |};
     moduleSpecifier := specifier;
     getStart := a;
     getEnd := b |}.

(** A parser that knows the trees of the given texts; any other text has
    no children of interest. *)
Fixpoint parserOf (known : list (string * SourceFile)) (fileName text : string)
  : SourceFile :=
  match known with
  | [] => []
  | (t, tree) :: rest =>
      if String.eqb t text then tree else parserOf rest fileName text
  end.

Definition documentOf (fileName text : string) : TextDocument.t :=
  {| TextDocument.fileName := fileName; TextDocument.getText := text |}.

Definition changeOf (uri old new typeName : string) (typeOnly : bool)
  : ImportChange.t :=
  {| ImportChange.uri := uri;
     ImportChange.oldImportPath := old;
     ImportChange.newImportPath := new;
     ImportChange.typeName := typeName;
     ImportChange.isTypeOnly := typeOnly |}.

(** A host without any configuration file. *)
Definition bareHost : PathResolver.ConfigHost :=
  {| PathResolver.tsconfigSetting := None;
     PathResolver.findConfigFile := fun _ => None;
     PathResolver.fileExists := fun _ => false;
     PathResolver.readConfigFile := fun _ => PathResolver.ReadError |}.

(** A host whose only file is [configPath], holding [config]. *)
Definition hostWith (configPath : string) (config : PathResolver.TsConfig)
  : PathResolver.ConfigHost :=
  {| PathResolver.tsconfigSetting := None;
     PathResolver.findConfigFile := fun _ => Some configPath;
     PathResolver.fileExists := String.eqb configPath;
     PathResolver.readConfigFile :=
       fun _ => PathResolver.ReadConfig (Some config) |}.

Definition configOf (base : string) (table : PathResolver.PathsTable)
  : PathResolver.TsConfig :=
  {| PathResolver.compilerOptions :=
       Some {| PathResolver.co_baseUrl := Some base;
               PathResolver.co_paths := Some table |} |}.

(** *** One import of [X] from ["p"] *)

Definition mergeText : string := "import { X } from " ++ quoted "p" ++ ";" ++ nl.
Definition mergeImport : ImportDeclaration := importOf false ["X"] "p" 0 22.
Definition mergeParser := parserOf [(mergeText, [ImportDecl mergeImport])].
Definition mergeDocument := documentOf "/proj/use.ts" mergeText.
Definition mergeChange := changeOf "/proj/use.ts" "./old" "p" "Y" false.

(** *** A type-only import of [X] from ["p"] *)

Definition typeOnlyText : string :=
  "import type { X } from " ++ quoted "p" ++ ";" ++ nl.
Definition typeOnlyImport : ImportDeclaration := importOf true ["X"] "p" 0 27.
Definition typeOnlyDocument := documentOf "/proj/use.ts" typeOnlyText.

(** *** Two imports from ["p"], the second one of the moved [Y] *)


(** *** The moved [Foo] between two other names *)

Definition unsortedText : string :=
  "import { Zed, Foo, Alpha } from " ++ quoted "./old" ++ ";" ++ nl.
Definition unsortedImport : ImportDeclaration :=
  importOf false ["Zed"; "Foo"; "Alpha"] "./old" 0 40.
Definition unsortedParser := parserOf [(unsortedText, [ImportDecl unsortedImport])].
Definition unsortedDocument := documentOf "/proj/use.ts" unsortedText.
Definition unsortedChange := changeOf "/proj/use.ts" "./old" "./new" "Foo" false.

(** *** A regular import rewritten for a type-only change *)

Definition regularText : string :=
  "import { Alpha, Foo } from " ++ quoted "./old" ++ ";" ++ nl.
Definition regularImport : ImportDeclaration :=
  importOf false ["Alpha"; "Foo"] "./old" 0 35.
Definition regularParser := parserOf [(regularText, [ImportDecl regularImport])].
Definition regularDocument := documentOf "/proj/use.ts" regularText.
Definition typeOnlyChange := changeOf "/proj/use.ts" "./old" "./new" "Foo" true.

(** *** A file without imports *)

Definition plainText : string :=
  "const x: Foo = { id: " ++ quoted "1" ++ " };" ++ nl ++ "export default x;" ++ nl.
Definition plainParser :=
  parserOf [(plainText, [OtherStatement 0 27; OtherStatement 28 45])].
Definition plainDocument := documentOf "/proj/use.ts" plainText.
Definition plainChange := changeOf "/proj/use.ts" "" "./c" "Foo" false.

(** *** A file with one import, from another module *)

Definition otherText : string :=
  "import { X } from " ++ quoted "q" ++ ";" ++ nl ++ "const y: X = 1;" ++ nl.
Definition otherParser :=
  parserOf [(otherText, [ImportDecl (importOf false ["X"] "q" 0 22);
                         OtherStatement 23 38])].
Definition otherDocument := documentOf "/proj/use.ts" otherText.
Definition otherChange := changeOf "/proj/use.ts" "" "./c" "Foo" true.

(** *** Two imports from the new module, one of them of [Foo] *)

Definition twiceText : string :=
  "import { Foo } from " ++ quoted "./c" ++ ";" ++ nl
  ++ "import type { Bar } from " ++ quoted "./c" ++ ";" ++ nl.
Definition twiceParser :=
  parserOf [(twiceText,
             [ImportDecl (importOf false ["Foo"] "./c" 0 26);
              ImportDecl (importOf true ["Bar"] "./c" 27 58)])].
Definition twiceDocument := documentOf "/proj/b.ts" twiceText.
Definition twiceChange := changeOf "/proj/b.ts" "./a" "./c" "Foo" false.

(** *** The file the move of [Foo] to ["./c"] leaves behind *)

Definition doneText : string :=
  "import { Bar } from " ++ quoted "./a" ++ ";" ++ nl
  ++ "import { Foo } from " ++ quoted "./c" ++ ";" ++ nl.
Definition doneParser :=
  parserOf [(doneText,
             [ImportDecl (importOf false ["Bar"] "./a" 0 26);
              ImportDecl (importOf false ["Foo"] "./c" 27 53)])].
Definition doneDocument := documentOf "/proj/b.ts" doneText.

(** *** The project of [a.ts], [b.ts] and the new [c.ts] *)

Definition fooText : string := "export interface Foo { id: string }".
Definition aText : string := fooText ++ nl.
Definition bText : string := "import { Foo } from " ++ quoted "./a" ++ ";" ++ nl.
Definition projectParser :=
  parserOf [(bText, [ImportDecl (importOf false ["Foo"] "./a" 0 26)])].
Definition project : Workspace :=
  <["/proj/a.ts" := aText]> (<["/proj/b.ts" := bText]> ∅).
Definition projectManager : ImportManager.t := ImportManager.new bareHost ["/proj"].
Definition foo : TypeInfo.t :=
  {| TypeInfo.name := "Foo";
     TypeInfo.node :=
       {| Node.getStart := 0; Node.getEnd := 35; Node.getText := fooText |} |}.
Definition fooReferences : list Location.t :=
  [{| Location.uri := "/proj/a.ts"; Location.range := mkRange 0 17 0 20 |};
   {| Location.uri := "/proj/b.ts"; Location.range := mkRange 0 9 0 12 |}].

(** *** The alias table of [baseUrl: "./src"], [paths: { "@/*": ["*"] }] *)

Definition aliasHost : PathResolver.ConfigHost :=
  hostWith "/root/tsconfig.json" (configOf "./src" [("@/*", ["*"])]).
Definition aliasResolver : PathResolver.t := PathResolver.new aliasHost "/root".

(** *** A table whose second pattern is the first to match *)

Definition twoAliases : PathResolver.t :=
  {| PathResolver.baseUrl := Some "./src";
     PathResolver.paths := Some [("@lib/*", ["lib/*"]); ("@/*", ["*"])];
     PathResolver.configDir := Some "/root" |}.

(** *** Three imports, two of them of [Foo] *)

Definition firstFoo : ImportDeclaration := importOf true ["Foo"] "./first" 0 34.
Definition lastFoo : ImportDeclaration := importOf false ["Bar"; "Foo"] "./last" 35 71.
Definition afterFoo : ImportDeclaration := importOf true ["Baz"] "./after" 72 106.

End Sample.

(* ===================================================================== *)
(** ** Declarations in a syntax tree: TypeFinder and TypeAnalyzer *)
(* ===================================================================== *)

(** The nodes the finder and the analyzer look at. A declaration carries
    [node.name.text], a type reference [node.typeName.getText()]. *)
Module Syntax.

Inductive Kind : Type :=
| InterfaceDeclaration (name : string)
| TypeAliasDeclaration (name : string)
| EnumDeclaration (name : string)
| TypeReference (typeName : string)
| Other.

(** A node with the children [ts.forEachChild] visits, in order. *)
#[warnings="-register-all"]
Inductive t : Type :=
| Tree (kind : Kind) (getStart getEnd : nat) (children : list t).

Definition kind (node : t) : Kind :=
  match node with Tree k _ _ _ => k end.

Definition getStart (node : t) : nat :=
  match node with Tree _ a _ _ => a end.

Definition getEnd (node : t) : nat :=
  match node with Tree _ _ b _ => b end.

Definition children (node : t) : list t :=
  match node with Tree _ _ _ cs => cs end.

(** [ts.isInterfaceDeclaration(node) || ts.isTypeAliasDeclaration(node) ||
    ts.isEnumDeclaration(node)] *)
Definition isTypeNode (node : t) : bool :=
  match kind node with
  | InterfaceDeclaration _ | TypeAliasDeclaration _ | EnumDeclaration _ => true
  | TypeReference _ | Other => false
  end.

(** [node.name.text] of a declaration. *)
Definition nameText (node : t) : string :=
  match kind node with
  | InterfaceDeclaration n | TypeAliasDeclaration n | EnumDeclaration n => n
  | TypeReference _ | Other => ""
  end.

(** The nodes of a forest, every node in front of its descendants. *)
Fixpoint nodes (node : t) : list t :=
  match node with
  | Tree _ _ _ cs => node :: flat_map nodes cs
  end.

Definition forest (roots : list t) : list t := flat_map nodes roots.

End Syntax.

(** The [TypeInfo] of [typeAnalyzer.ts]. *)
Module FoundType.
Record t : Type := {
  name : string;
  node : Syntax.t;
  dependencies : list string
}.
End FoundType.

Module TypeFinder.

(** [node.getStart() <= offset && node.getEnd() >= offset] *)
Definition spans (offset : nat) (node : Syntax.t) : bool :=
  (Syntax.getStart node <=? offset)%nat && (offset <=? Syntax.getEnd node)%nat.

(** The [visit] of [findTypeAtSelection]: it never returns a value, so
    [ts.forEachChild] goes through all the children; [selectedNode] is the
    variable it assigns. *)
Fixpoint visitSelection (offset : nat) (node : Syntax.t)
    (selectedNode : option Syntax.t) : option Syntax.t :=
  match node with
  | Syntax.Tree _ _ _ cs =>
      if spans offset node && Syntax.isTypeNode node then Some node
      else fold_left (fun selected child => visitSelection offset child selected)
             cs selectedNode
  end.

(** The [visit] of [findTypeInFile]. *)
Fixpoint visitNamed (typeName : string) (node : Syntax.t)
    (foundNode : option Syntax.t) : option Syntax.t :=
  match node with
  | Syntax.Tree _ _ _ cs =>
      if Syntax.isTypeNode node && String.eqb (Syntax.nameText node) typeName
      then Some node
      else fold_left (fun found child => visitNamed typeName child found)
             cs foundNode
  end.

Section WithParser.
(** [ts.createSourceFile(fileName, text, ...)], as the children of the
    source file in the syntax tree. *)
Variable parseTree : string -> string -> list Syntax.t.

Definition findTypeAtSelection (document : TextDocument.t)
    (selectionStart : Position) : option FoundType.t :=
  let sourceFile :=
    parseTree (TextDocument.fileName document) (TextDocument.getText document) in
  let offset := TextDocument.offsetAt document selectionStart in
  let selectedNode :=
    fold_left (fun selected child => visitSelection offset child selected)
      sourceFile None in
  match selectedNode with
  | None => None
  | Some selectedNode =>
      Some {| FoundType.name := Syntax.nameText selectedNode;
              FoundType.node := selectedNode;
              FoundType.dependencies := [] |}
  end.

Definition findTypeInFile (uri typeName : string) : M (option FoundType.t) :=
  let* document := openTextDocument uri in
  let sourceFile :=
    parseTree (TextDocument.fileName document) (TextDocument.getText document) in
  let foundNode :=
    fold_left (fun found child => visitNamed typeName child found)
      sourceFile None in
  match foundNode with
  | None => ret None
  | Some foundNode =>
      ret (Some {| FoundType.name := typeName;
                   FoundType.node := foundNode;
                   FoundType.dependencies := [] |})
  end.

End WithParser.

End TypeFinder.

Module TypeAnalyzer.

(** [dependencies.includes(typeName)] *)
Definition includes (dependencies : list string) (typeName : string) : bool :=
  existsb (String.eqb typeName) dependencies.

(** The [visitor] of [analyzeDependencies]; [dependencies] is the array
    it pushes to. *)
Fixpoint visitor (node : Syntax.t) (dependencies : list string) : list string :=
  match node with
  | Syntax.Tree k _ _ cs =>
      let dependencies :=
        match k with
        | Syntax.TypeReference typeName =>
            if includes dependencies typeName then dependencies
            else (dependencies ++ [typeName])%list
        | _ => dependencies
        end in
      fold_left (fun collected child => visitor child collected) cs dependencies
  end.

(** The walk starts at the children of the declaration. *)
Definition analyzeDependencies (typeInfo : FoundType.t) : list string :=
  fold_left (fun collected child => visitor child collected)
    (Syntax.children (FoundType.node typeInfo)) [].

Definition getTypeInfo (node : Syntax.t) : option FoundType.t :=
  if negb (Syntax.isTypeNode node) then None
  else Some {| FoundType.name := Syntax.nameText node;
               FoundType.node := node;
               FoundType.dependencies := [] |}.

Section WithParser.
Variable parseTree : string -> string -> list Syntax.t.
(** [error instanceof Error ? error.message : 'Unknown error'] *)
Variable messageOf : exn -> string.

(** The callback of the scan of [validateMove]: only the children of the
    source file are looked at. *)
Definition conflictStep (typeName : string) (hasConflict : bool)
    (node : Syntax.t) : bool :=
  if Syntax.isTypeNode node && String.eqb (Syntax.nameText node) typeName
  then true else hasConflict.

(** [None] is [undefined]: the move is valid. *)
Definition validateMove (typeInfo : FoundType.t) (destinationUri : string)
  : M (option string) :=
  tryCatch
    (let* destinationDoc := openTextDocument destinationUri in
     let sourceText := TextDocument.getText destinationDoc in
     let sourceFile := parseTree destinationUri sourceText in
     let hasConflict :=
       fold_left (conflictStep (FoundType.name typeInfo)) sourceFile false in
     if hasConflict then
       ret (Some ("Type '" ++ FoundType.name typeInfo
                  ++ "' already exists in destination file"))
     else ret None)
    (fun error => ret (Some ("Failed to validate move: " ++ messageOf error))).

End WithParser.

End TypeAnalyzer.

(* ===================================================================== *)
(** ** ReferenceAnalyzer and the rest of PathResolver *)
(* ===================================================================== *)

Module JsMore.

(** [s.includes(part)] *)
Fixpoint includes (s part : string) : bool :=
  Js.startsWith s part
  || match s with
     | EmptyString => false
     | String _ rest => includes rest part
     end.

(** [s.replace(/\*/g, '')] *)
Fixpoint removeStars (s : string) : string :=
  match s with
  | EmptyString => EmptyString
  | String c rest =>
      if Ascii.eqb c "*" then removeStars rest else String c (removeStars rest)
  end.

End JsMore.

Module ImportStyle.

(** [PathResolver.shouldPreserveImportType]; [fromPath] is not read. *)
Definition shouldPreserveImportType (self : PathResolver.t)
    (importPath fromPath : string) : bool :=
  match PathResolver.paths self with
  | None => false
  | Some paths =>
      existsb (fun entry : string * list string =>
                 let patternWithoutWildcard := JsMore.removeStars entry.1 in
                 Js.startsWith importPath patternWithoutWildcard)
        paths
  end.

End ImportStyle.

Module ReferenceAnalyzer.

(** [references || []] on what the reference provider resolves to. *)
Definition findReferences (provided : option (list Location.t)) : list Location.t :=
  match provided with
  | Some references => references
  | None => []
  end.

Section WithSettings.
(** [config.get('ignoredFolders', ['node_modules', 'dist'])] and
    [document.isUntitled], by the path of the document. *)
Variable ignoredFolders : list string.
Variable isUntitled : string -> bool.

(** The body of the loop of [validateReferences]: the errors collected so
    far, after this reference. *)
Definition validateReference (errors : list string) (ref : Location.t)
  : M (list string) :=
  let fsPath := Location.uri ref in
  if existsb (fun folder => JsMore.includes fsPath folder) ignoredFolders then
    ret (errors ++ [("Reference found in ignored folder: " ++ fsPath)%string])%list
  else
    tryCatch
      (let* document := openTextDocument fsPath in
       if isUntitled (TextDocument.fileName document)
       then ret (errors ++ [("Cannot modify unsaved file: " ++ fsPath)%string])%list
       else ret errors)
      (fun _ => ret (errors ++ [("Cannot access file: " ++ fsPath)%string])%list).

Fixpoint validateReferencesLoop (references : list Location.t)
    (errors : list string) : M (list string) :=
  match references with
  | [] => ret errors
  | ref :: rest =>
      let* errors := validateReference errors ref in
      validateReferencesLoop rest errors
  end.

Definition validateReferences (references : list Location.t) : M (list string) :=
  validateReferencesLoop references [].

End WithSettings.

End ReferenceAnalyzer.

(* ===================================================================== *)
(** ** More vocabulary and concrete inputs *)
(* ===================================================================== *)

Module SpecMore.

(** An import declaration without its default binding and without the
    imported names of its [A as B] elements. *)
Definition eraseAliases (node : ImportDeclaration) : ImportDeclaration :=
  {| importClause :=
       match importClause node with
       | None => None
       | Some clause =>
           Some {| isTypeOnly := isTypeOnly clause;
                   defaultBinding := None;
                   namedBindings :=
                     match namedBindings clause with
                     | Some (NamedImports elements) =>
                         Some (NamedImports
                                 (map (fun el => {| propertyName := None;
                                                    name := name el |}) elements))
                     | other => other
                     end |}
       end;
     moduleSpecifier := moduleSpecifier node;
     getStart := getStart node;
     getEnd := getEnd node |}.

Definition eraseStatement (node : Statement) : Statement :=
  match node with
  | ImportDecl node => ImportDecl (eraseAliases node)
  | OtherStatement a b => OtherStatement a b
  end.

(** The edit [addNewImport] pushes after the import that ends at
    [lastImportPos]. *)
Definition synthesizedEdit (document : TextDocument.t) (change : ImportChange.t)
    (lastImportPos : nat) : ImportEdit.t :=
  let pos := line (TextDocument.positionAt document lastImportPos) + 1 in
  {| ImportEdit.range := mkRange pos 0 pos 0;
     ImportEdit.newText :=
       ImportManager.importStatement
         (ImportManager.typeKeyword (ImportChange.isTypeOnly change))
         (ImportChange.typeName change) (ImportChange.newImportPath change)
       ++ nl |}.

(** The order of the edits of a file: never an earlier line in front of a
    later one. *)
Definition fromLastLine (a b : ImportEdit.t) : Prop :=
  line (start (ImportEdit.range b)) <= line (start (ImportEdit.range a)).

(** A type declaration that spans the offset. *)
Definition typeNodeAt (offset : nat) (node : Syntax.t) : bool :=
  TypeFinder.spans offset node && Syntax.isTypeNode node.

(** A type declaration of the given name. *)
Definition typeNodeNamed (typeName : string) (node : Syntax.t) : bool :=
  Syntax.isTypeNode node && String.eqb (Syntax.nameText node) typeName.

(** The names of the type references among the nodes. *)
Definition referencedNames (nodes : list Syntax.t) : list string :=
  flat_map (fun node =>
              match Syntax.kind node with
              | Syntax.TypeReference typeName => [typeName]
              | _ => []
              end) nodes.

(** The text without the code units from [a] up to [b]. *)
Definition without (a b : nat) (text : string) : string :=
  String.substring 0 a text ++ String.substring b (String.length text - b) text.

(** A change amends an import of the type in the file of a reference. *)
Definition amends (createSourceFile : string -> string -> SourceFile)
    (typeInfo : TypeInfo.t) (references : list Location.t) (ws : Workspace)
    (change : ImportChange.t) : Prop :=
  ImportChange.oldImportPath change <> ""
  /\ ImportChange.typeName change = TypeInfo.name typeInfo
  /\ In (ImportChange.uri change) (map Location.uri references)
  /\ exists text,
       ws !! ImportChange.uri change = Some text
       /\ ImportManager.findExistingImportPath
            (createSourceFile (ImportChange.uri change) text) typeInfo
          = {| ExistingImport.path := ImportChange.oldImportPath change;
               ExistingImport.isTypeOnly := ImportChange.isTypeOnly change |}.

(** The walk the two visits of the finder share: a node that satisfies
    [wanted] is picked and not entered, any other node is entered. *)
Fixpoint pick (wanted : Syntax.t -> bool) (node : Syntax.t)
    (picked : option Syntax.t) : option Syntax.t :=
  match node with
  | Syntax.Tree _ _ _ cs =>
      if wanted node then Some node
      else fold_left (fun found child => pick wanted child found) cs picked
  end.

Definition pickAmong (wanted : Syntax.t -> bool) (roots : list Syntax.t)
    (picked : option Syntax.t) : option Syntax.t :=
  fold_left (fun found child => pick wanted child found) roots picked.

(** The document of a reference can be opened and changed: it is in no
    ignored folder, it is in the workspace, and it is saved. *)
Definition acceptable (ignoredFolders : list string) (isUntitled : string -> bool)
    (ws : Workspace) (ref : Location.t) : Prop :=
  existsb (fun folder => JsMore.includes (Location.uri ref) folder) ignoredFolders
  = false
  /\ ws !! Location.uri ref <> None
  /\ isUntitled (Location.uri ref) = false.

(** The visit of the nodes takes the array of dependencies from [before]
    to [after]: no duplicate comes in, and the names that come in are the
    ones of the type references among the nodes. *)
Definition collects (nodes : list Syntax.t) (before after : list string) : Prop :=
  (List.NoDup before -> List.NoDup after)
  /\ forall typeName,
       In typeName after
       <-> In typeName before \/ In typeName (referencedNames nodes).

End SpecMore.

(** Concrete inputs of the statements below. *)
Module SampleMore.

(** *** A sole import of the moved [Foo] *)

Definition soleText : string :=
  "import { Foo } from " ++ quoted "./a" ++ ";" ++ nl ++ "let f: Foo;" ++ nl.
Definition soleImport : ImportDeclaration := Sample.importOf false ["Foo"] "./a" 0 26.
Definition soleParser := Sample.parserOf [(soleText, [ImportDecl soleImport])].
Definition soleDocument := Sample.documentOf "/proj/b.ts" soleText.

(** *** A namespace import of the new module *)

Definition namespaceText : string :=
  "import * as c from " ++ quoted "./c" ++ ";" ++ nl ++ "let f: Foo;" ++ nl.
Definition namespaceImport : ImportDeclaration :=
  {| importClause :=
       Some {| isTypeOnly := false;
               defaultBinding := None;
               namedBindings := Some (NamespaceImport "c") |};
     moduleSpecifier := "./c";
     getStart := 0;
     getEnd := 25 |}.
Definition namespaceParser :=
  Sample.parserOf [(namespaceText, [ImportDecl namespaceImport])].
Definition namespaceDocument := Sample.documentOf "/proj/b.ts" namespaceText.

(** *** A default binding and a renamed element *)

Definition renamedText : string :=
  "import D, { A as B } from " ++ quoted "p" ++ ";" ++ nl.
Definition renamedImport : ImportDeclaration :=
  {| importClause :=
       Some {| isTypeOnly := false;
               defaultBinding := Some "D";
               namedBindings :=
                 Some (NamedImports [{| propertyName := Some "A"; name := "B" |}]) |};
     moduleSpecifier := "p";
     getStart := 0;
     getEnd := 29 |}.
Definition renamedParser := Sample.parserOf [(renamedText, [ImportDecl renamedImport])].
Definition renamedDocument := Sample.documentOf "/proj/use.ts" renamedText.

(** *** A reference to a file that is not in the workspace *)

Definition strayReferences : list Location.t :=
  [{| Location.uri := "/proj/b.ts"; Location.range := mkRange 0 9 0 12 |};
   {| Location.uri := "/proj/gone.ts"; Location.range := mkRange 0 0 0 3 |}].

(** *** A type alias inside an interface *)

Definition innerAlias : Syntax.t :=
  Syntax.Tree (Syntax.TypeAliasDeclaration "Inner") 25 45
    [Syntax.Tree (Syntax.TypeReference "Foo") 36 39 [];
     Syntax.Tree (Syntax.TypeReference "Bar") 42 45
       [Syntax.Tree (Syntax.TypeReference "Foo") 42 45 []]].
Definition outerInterface : Syntax.t :=
  Syntax.Tree (Syntax.InterfaceDeclaration "Outer") 0 60
    [Syntax.Tree Syntax.Other 20 50 [innerAlias]].
Definition laterEnum : Syntax.t :=
  Syntax.Tree (Syntax.EnumDeclaration "Later") 62 90 [].
Definition nestedText : string := "interface Outer { m(): void }".
Definition nestedDocument := Sample.documentOf "/proj/n.ts" nestedText.
Definition nestedParser (fileName text : string) : list Syntax.t :=
  if String.eqb text nestedText then [outerInterface; laterEnum] else [].

End SampleMore.

(* ===================================================================== *)
(** ** Facts about the sort *)
(* ===================================================================== *)

Section SortFacts.
Context {A : Type} (leb : A -> A -> bool).

Lemma insertSorted_perm (x : A) (l : list A) :
  Permutation (Js.insertSorted leb x l) (x :: l).
Proof.
  induction l as [|y rest IH]; simpl.
  - apply Permutation_refl.
  - destruct (leb x y).
    + apply Permutation_refl.
    + apply perm_trans with (y :: x :: rest).
      * apply perm_skip, IH.
      * apply perm_swap.
Qed.

Lemma sortBy_perm (l : list A) : Permutation (Js.sortBy leb l) l.
Proof.
  induction l as [|x rest IH]; simpl.
  - apply perm_nil.
  - apply perm_trans with (x :: Js.sortBy leb rest).
    + apply insertSorted_perm.
    + apply perm_skip, IH.
Qed.

Lemma sortBy_In (x : A) (l : list A) : In x (Js.sortBy leb l) <-> In x l.
Proof.
  split; apply Permutation_in.
  - apply sortBy_perm.
  - apply Permutation_sym, sortBy_perm.
Qed.

Lemma sortBy_empty (l : list A) : Js.sortBy leb l = [] -> l = [].
Proof.
  intros H. apply Permutation_nil.
  rewrite <- H. apply sortBy_perm.
Qed.

Hypothesis leb_total : forall a b, leb a b = true \/ leb b a = true.

Lemma insertSorted_HdRel (a x : A) (l : list A) :
  leb a x = true ->
  HdRel (fun u v => leb u v = true) a l ->
  HdRel (fun u v => leb u v = true) a (Js.insertSorted leb x l).
Proof.
  intros Hax Hl. destruct l as [|y rest]; simpl.
  - constructor. exact Hax.
  - destruct (leb x y).
    + constructor. exact Hax.
    + constructor. inversion Hl; assumption.
Qed.

Lemma insertSorted_sorted (x : A) (l : list A) :
  Sorted (fun u v => leb u v = true) l ->
  Sorted (fun u v => leb u v = true) (Js.insertSorted leb x l).
Proof.
  induction l as [|y rest IH]; intros Hl; simpl.
  - repeat constructor.
  - destruct (leb x y) eqn:Hxy.
    + constructor; [exact Hl | constructor; exact Hxy].
    + inversion Hl as [|? ? Hrest Hhd]; subst.
      constructor.
      * apply IH, Hrest.
      * apply insertSorted_HdRel; [|exact Hhd].
        destruct (leb_total x y) as [H|H]; [congruence | exact H].
Qed.

Lemma sortBy_sorted (l : list A) :
  Sorted (fun u v => leb u v = true) (Js.sortBy leb l).
Proof.
  induction l as [|x rest IH]; simpl.
  - constructor.
  - apply insertSorted_sorted, IH.
Qed.

End SortFacts.



(* ===================================================================== *)
(** ** Facts about the scan of [calculateEditsForDocument] *)
(* ===================================================================== *)

Lemma handleOldImportPath_app node document change (edits : list ImportEdit.t) :
  ImportManager.handleOldImportPath node document change edits
  = (edits ++ ImportManager.handleOldImportPath node document change [])%list.
Proof.
  unfold ImportManager.handleOldImportPath.
  destruct (importClause node) as [clause|]; [|now rewrite app_nil_r].
  destruct (namedBindings clause) as [[alias|elements]|];
    try now rewrite app_nil_r.
  destruct (match elements with [el] => _ | _ => false end); [reflexivity|].
  destruct (ImportManager.bindsName _ elements);
    [reflexivity | now rewrite app_nil_r].
Qed.

Lemma handleNewImportPath_app node document change (edits : list ImportEdit.t) :
  ImportManager.handleNewImportPath node document change edits
  = (edits ++ ImportManager.handleNewImportPath node document change [])%list.
Proof.
  unfold ImportManager.handleNewImportPath.
  destruct (importClause node) as [clause|]; [|now rewrite app_nil_r].
  destruct (namedBindings clause) as [[alias|elements]|];
    try now rewrite app_nil_r.
  destruct (ImportManager.bindsName _ elements);
    [now rewrite app_nil_r | reflexivity].
Qed.

Lemma scanStep_edits document change scan node :
  ImportManager.editsToApply (ImportManager.scanStep document change scan node)
  = (ImportManager.editsToApply scan ++ Spec.stepEdits document change node)%list.
Proof.
  unfold Spec.stepEdits, ImportManager.scanStep.
  destruct node as [node|a b]; simpl; [|now rewrite app_nil_r].
  destruct (String.eqb _ (ImportChange.oldImportPath change)); simpl.
  - apply handleOldImportPath_app.
  - destruct (String.eqb _ (ImportChange.newImportPath change)); simpl.
    + apply handleNewImportPath_app.
    + now rewrite app_nil_r.
Qed.

Lemma scanStep_flag document change scan node :
  ImportManager.hasExistingImport (ImportManager.scanStep document change scan node)
  = ImportManager.hasExistingImport scan || Spec.reachesNewBranch change node.
Proof.
  unfold Spec.reachesNewBranch, ImportManager.scanStep.
  destruct node as [node|a b];
    [|now destruct (ImportManager.hasExistingImport scan)].
  destruct (String.eqb _ (ImportChange.oldImportPath change));
    [now destruct (ImportManager.hasExistingImport scan)|].
  destruct (String.eqb _ (ImportChange.newImportPath change));
    now destruct (ImportManager.hasExistingImport scan).
Qed.

Lemma scanStep_pos document change scan node :
  ImportManager.lastImportPos (ImportManager.scanStep document change scan node)
  = Spec.lastImportEnd (ImportManager.lastImportPos scan) [node].
Proof.
  unfold ImportManager.scanStep.
  destruct node as [node|a b]; simpl; [|reflexivity].
  destruct (String.eqb _ (ImportChange.oldImportPath change)); simpl;
    [reflexivity|].
  destruct (String.eqb _ (ImportChange.newImportPath change)); reflexivity.
Qed.

Lemma scan_fold_edits document change sourceFile scan :
  ImportManager.editsToApply
    (fold_left (ImportManager.scanStep document change) sourceFile scan)
  = (ImportManager.editsToApply scan
     ++ flat_map (Spec.stepEdits document change) sourceFile)%list.
Proof.
  revert scan. induction sourceFile as [|node rest IH]; intros scan; simpl.
  - now rewrite app_nil_r.
  - rewrite IH, scanStep_edits, <- app_assoc. reflexivity.
Qed.

Lemma scan_fold_flag document change sourceFile scan :
  ImportManager.hasExistingImport
    (fold_left (ImportManager.scanStep document change) sourceFile scan)
  = ImportManager.hasExistingImport scan
    || existsb (Spec.reachesNewBranch change) sourceFile.
Proof.
  revert scan. induction sourceFile as [|node rest IH]; intros scan; simpl.
  - now rewrite orb_false_r.
  - rewrite IH, scanStep_flag, orb_assoc. reflexivity.
Qed.

Lemma scan_fold_pos document change sourceFile scan :
  ImportManager.lastImportPos
    (fold_left (ImportManager.scanStep document change) sourceFile scan)
  = Spec.lastImportEnd (ImportManager.lastImportPos scan) sourceFile.
Proof.
  revert scan. induction sourceFile as [|node rest IH]; intros scan; simpl.
  - reflexivity.
  - rewrite IH, scanStep_pos. reflexivity.
Qed.

(** The edits of a file: what the visits push, then the synthesized
    import unless a visit took the branch of the new specifier, sorted. *)
Lemma calculateEditsForDocument_eq createSourceFile document change :
  let sourceFile :=
    createSourceFile (TextDocument.fileName document) (TextDocument.getText document) in
  let pushed := flat_map (Spec.stepEdits document change) sourceFile in
  ImportManager.calculateEditsForDocument createSourceFile document change
  = Js.sortBy ImportManager.laterLineFirst
      (if existsb (Spec.reachesNewBranch change) sourceFile then pushed
       else ImportManager.addNewImport (Spec.lastImportEnd 0 sourceFile)
              document change pushed).
Proof.
  intros sourceFile pushed.
  unfold ImportManager.calculateEditsForDocument, ImportManager.scanDocument.
  fold sourceFile.
  rewrite scan_fold_edits, scan_fold_flag, scan_fold_pos. reflexivity.
Qed.

(* ===================================================================== *)
(** ** Facts about the two handlers *)
(* ===================================================================== *)

Lemma getNamedImports_Some node elements :
  ImportManager.getNamedImports node = Some elements ->
  exists clause,
    importClause node = Some clause
    /\ namedBindings clause = Some (NamedImports elements)
    /\ ImportManager.clauseIsTypeOnly node = isTypeOnly clause.
Proof.
  unfold ImportManager.getNamedImports, ImportManager.clauseIsTypeOnly.
  destruct (importClause node) as [clause|]; simpl; [|discriminate].
  destruct (namedBindings clause) as [[alias|els]|] eqn:Hn; try discriminate.
  intros [= ->]. exists clause. auto.
Qed.

Lemma getNamedImports_None_old node document change edits :
  ImportManager.getNamedImports node = None ->
  ImportManager.handleOldImportPath node document change edits = edits.
Proof.
  unfold ImportManager.getNamedImports, ImportManager.handleOldImportPath.
  destruct (importClause node) as [clause|]; simpl; [|reflexivity].
  destruct (namedBindings clause) as [[alias|els]|]; try reflexivity.
  discriminate.
Qed.

Lemma getNamedImports_None_new node document change edits :
  ImportManager.getNamedImports node = None ->
  ImportManager.handleNewImportPath node document change edits = edits.
Proof.
  unfold ImportManager.getNamedImports, ImportManager.handleNewImportPath.
  destruct (importClause node) as [clause|]; simpl; [|reflexivity].
  destruct (namedBindings clause) as [[alias|els]|]; try reflexivity.
  discriminate.
Qed.

Lemma handleNewImportPath_named node document change edits elements :
  ImportManager.getNamedImports node = Some elements ->
  ImportManager.handleNewImportPath node document change edits
  = if ImportManager.bindsName (ImportChange.typeName change) elements then edits
    else
      (edits ++
       [ImportManager.createEdit (getStart node) (getEnd node)
          (ImportManager.importStatement
             (ImportManager.typeKeyword
                (ImportManager.clauseIsTypeOnly node || ImportChange.isTypeOnly change))
             (Js.join ", "
                (Js.sortStrings (map name elements ++ [ImportChange.typeName change])))
             (moduleSpecifier node))
          document])%list.
Proof.
  intros H. destruct (getNamedImports_Some _ _ H) as (clause & Hc & Hn & Ht).
  unfold ImportManager.handleNewImportPath. rewrite Hc, Hn, Ht. reflexivity.
Qed.



Lemma handleOldImportPath_unbound node document change edits elements :
  ImportManager.getNamedImports node = Some elements ->
  ImportManager.bindsName (ImportChange.typeName change) elements = false ->
  ImportManager.handleOldImportPath node document change edits = edits.
Proof.
  intros H Hbinds.
  destruct (getNamedImports_Some _ _ H) as (clause & Hc & Hn & Ht).
  unfold ImportManager.handleOldImportPath. rewrite Hc, Hn, Hbinds.
  destruct elements as [|el [|el' rest]]; try reflexivity.
  simpl in Hbinds. rewrite orb_false_r in Hbinds. rewrite Hbinds. reflexivity.
Qed.

Lemma importStatement_type_only (typeOnly : bool) (names specifier : string) :
  Spec.isTypeOnlyImport
    (ImportManager.importStatement (ImportManager.typeKeyword typeOnly) names specifier)
  = typeOnly.
Proof. destruct typeOnly; reflexivity. Qed.

Lemma stepEdits_old document change node :
  moduleSpecifier node = ImportChange.oldImportPath change ->
  Spec.stepEdits document change (ImportDecl node)
  = ImportManager.handleOldImportPath node document change [].
Proof.
  intros H. unfold Spec.stepEdits, ImportManager.scanStep.
  rewrite H, String.eqb_refl. reflexivity.
Qed.

Lemma stepEdits_new document change node :
  moduleSpecifier node <> ImportChange.oldImportPath change ->
  moduleSpecifier node = ImportChange.newImportPath change ->
  Spec.stepEdits document change (ImportDecl node)
  = ImportManager.handleNewImportPath node document change [].
Proof.
  intros Hold Hnew. unfold Spec.stepEdits, ImportManager.scanStep.
  apply String.eqb_neq in Hold. rewrite Hold.
  rewrite Hnew, String.eqb_refl. reflexivity.
Qed.

Lemma stepEdits_other document change node :
  moduleSpecifier node <> ImportChange.oldImportPath change ->
  moduleSpecifier node <> ImportChange.newImportPath change ->
  Spec.stepEdits document change (ImportDecl node) = [].
Proof.
  intros Hold Hnew. unfold Spec.stepEdits, ImportManager.scanStep.
  apply String.eqb_neq in Hold, Hnew. rewrite Hold, Hnew. reflexivity.
Qed.

(** An edit pushed by a visit is among the edits of the file. *)
Lemma pushed_edit_is_calculated createSourceFile document change node edit :
  In node (createSourceFile (TextDocument.fileName document)
             (TextDocument.getText document)) ->
  In edit (Spec.stepEdits document change node) ->
  In edit (ImportManager.calculateEditsForDocument createSourceFile document change).
Proof.
  intros Hnode Hedit.
  rewrite calculateEditsForDocument_eq. apply sortBy_In.
  assert (In edit (flat_map (Spec.stepEdits document change)
            (createSourceFile (TextDocument.fileName document)
               (TextDocument.getText document)))) as Hin.
  { apply in_flat_map. exists node. split; assumption. }
  destruct (existsb _ _); [exact Hin|].
  unfold ImportManager.addNewImport. apply in_or_app. left. exact Hin.
Qed.

(* ===================================================================== *)
(** ** Merging into an import at the new specifier *)
(* ===================================================================== *)




(** C2. When [handleNewImportPath] merges the moved type into an import
    with named bindings, the statement it writes carries the [type]
    keyword if and only if the existing declaration is type-only or the
    change is. *)
Theorem C2_merged_import_type_only_union node document change edits elements :
  ImportManager.getNamedImports node = Some elements ->
  ImportManager.bindsName (ImportChange.typeName change) elements = false ->
  exists newImport,
    ImportManager.handleNewImportPath node document change edits
    = (edits ++ [ImportManager.createEdit (getStart node) (getEnd node)
                   newImport document])%list
    /\ (Spec.isTypeOnlyImport newImport = true
        <-> ImportManager.clauseIsTypeOnly node = true
            \/ ImportChange.isTypeOnly change = true).
Proof.
  intros Hnamed Hfree.
  rewrite (handleNewImportPath_named _ _ _ _ _ Hnamed), Hfree.
  eexists. split; [reflexivity|].
  rewrite importStatement_type_only. apply orb_true_iff.
Qed.

Lemma C2_type_only_union_witness :
  ImportManager.getNamedImports Sample.typeOnlyImport
  = Some [{| propertyName := None; name := "X" |}]
  /\ exists newImport,
       ImportManager.handleNewImportPath Sample.typeOnlyImport
         Sample.typeOnlyDocument Sample.mergeChange []
       = [ImportManager.createEdit 0 27 newImport Sample.typeOnlyDocument]
       /\ (Spec.isTypeOnlyImport newImport = true
           <-> ImportManager.clauseIsTypeOnly Sample.typeOnlyImport = true
               \/ ImportChange.isTypeOnly Sample.mergeChange = true).
Proof.
  split; [reflexivity|].
  apply (C2_merged_import_type_only_union Sample.typeOnlyImport
           Sample.typeOnlyDocument Sample.mergeChange []
           [{| propertyName := None; name := "X" |}]);
    reflexivity.
Defined.

(** A regular-import move merged into a type-only import keeps [type]. *)
Example merge_regular_move_into_type_only_import :
  ImportManager.handleNewImportPath Sample.typeOnlyImport Sample.typeOnlyDocument
    Sample.mergeChange []
  = [{| ImportEdit.range := mkRange 0 0 0 27;
        ImportEdit.newText := "import type { X, Y } from " ++ quoted "p" ++ ";" |}].
Proof. reflexivity. Qed.

(* ===================================================================== *)
(** ** Rewriting an import at the old specifier *)
(* ===================================================================== *)



(** What the rewriter writes for an unsorted import, and for a regular
    import under a type-only change. *)
Example old_import_rewrites :
  map ImportEdit.newText
    (ImportManager.calculateEditsForDocument Sample.unsortedParser
       Sample.unsortedDocument Sample.unsortedChange)
  = ["import { Foo } from " ++ quoted "./new" ++ ";" ++ nl;
     "import { Zed, Alpha } from " ++ quoted "./old" ++ ";"]
  /\ map ImportEdit.newText
       (ImportManager.calculateEditsForDocument Sample.regularParser
          Sample.regularDocument Sample.typeOnlyChange)
     = ["import type { Foo } from " ++ quoted "./new" ++ ";" ++ nl;
        "import type { Alpha } from " ++ quoted "./old" ++ ";"].
Proof. split; reflexivity. Qed.


(* ===================================================================== *)
(** ** Synthesizing a new import *)
(* ===================================================================== *)

(** Without an import declaration at the new specifier the edits of a
    file are what the visits of the imports at the old specifier push,
    and one insertion of the synthesized statement, at the start of the
    line below the end of the last import declaration. *)
Lemma no_import_at_new_specifier_adds_one createSourceFile document change :
  let sourceFile :=
    createSourceFile (TextDocument.fileName document) (TextDocument.getText document) in
  let pos :=
    line (TextDocument.positionAt document (Spec.lastImportEnd 0 sourceFile)) + 1 in
  (forall node, In (ImportDecl node) sourceFile ->
                moduleSpecifier node <> ImportChange.newImportPath change) ->
  Permutation
    (ImportManager.calculateEditsForDocument createSourceFile document change)
    (flat_map (Spec.stepEdits document change) sourceFile
     ++ [{| ImportEdit.range := mkRange pos 0 pos 0;
            ImportEdit.newText :=
              ImportManager.importStatement
                (ImportManager.typeKeyword (ImportChange.isTypeOnly change))
                (ImportChange.typeName change) (ImportChange.newImportPath change)
              ++ nl |}]).
Proof.
  intros sourceFile pos Hnone.
  rewrite calculateEditsForDocument_eq. fold sourceFile.
  assert (existsb (Spec.reachesNewBranch change) sourceFile = false) as ->.
  { apply not_true_is_false. intros H.
    apply existsb_exists in H. destruct H as (node & Hin & Hnew).
    destruct node as [node|a b]; [|discriminate].
    apply andb_true_iff in Hnew. destruct Hnew as [_ Hnew].
    apply String.eqb_eq in Hnew. exact (Hnone node Hin Hnew). }
  apply sortBy_perm.
Qed.

(** C4, at a file without imports. The one edit of the file inserts the
    synthesized import at the start of line 1, and the file it leaves has
    the import below its first line, not at its top. *)
Theorem C4_insert_without_imports_is_below_first_line :
  Spec.lastImportEnd 0
    (Sample.plainParser (TextDocument.fileName Sample.plainDocument)
       (TextDocument.getText Sample.plainDocument)) = 0
  /\ ImportManager.calculateEditsForDocument Sample.plainParser
       Sample.plainDocument Sample.plainChange
     = [{| ImportEdit.range := mkRange 1 0 1 0;
           ImportEdit.newText := "import { Foo } from " ++ quoted "./c" ++ ";" ++ nl |}]
  /\ (ImportManager.updateImports Sample.plainParser
        {| Changes.importChanges := [Sample.plainChange];
           Changes.typeContent := Sample.fooText |}
        {["/proj/use.ts" := Sample.plainText]}).2 !! "/proj/use.ts"
     = Some ("const x: Foo = { id: " ++ quoted "1" ++ " };" ++ nl
             ++ "import { Foo } from " ++ quoted "./c" ++ ";" ++ nl
             ++ "export default x;" ++ nl).
Proof. repeat split; vm_compute; reflexivity. Qed.

(** With an import in the file the insertion is one line below it. *)
Example insert_below_last_import :
  ImportManager.calculateEditsForDocument Sample.otherParser
    Sample.otherDocument Sample.otherChange
  = [{| ImportEdit.range := mkRange 1 0 1 0;
        ImportEdit.newText :=
          "import type { Foo } from " ++ quoted "./c" ++ ";" ++ nl |}].
Proof. reflexivity. Qed.

(* ===================================================================== *)
(** ** The scan for the existing import *)
(* ===================================================================== *)

Lemma findExistingImportStep_skip typeName result node :
  Spec.bindsIn typeName node = false ->
  ImportManager.findExistingImportStep typeName result node = result.
Proof.
  unfold Spec.bindsIn, ImportManager.findExistingImportStep.
  destruct node as [node|a b]; [|reflexivity].
  destruct (ImportManager.getNamedImports node) as [elements|]; [|reflexivity].
  intros ->. reflexivity.
Qed.

Lemma findExistingImportStep_hit typeName result node :
  Spec.bindsIn typeName (ImportDecl node) = true ->
  ImportManager.findExistingImportStep typeName result (ImportDecl node)
  = {| ExistingImport.path := moduleSpecifier node;
       ExistingImport.isTypeOnly := ImportManager.clauseIsTypeOnly node |}.
Proof.
  unfold Spec.bindsIn, ImportManager.findExistingImportStep.
  destruct (ImportManager.getNamedImports node) as [elements|]; [|discriminate].
  intros ->. reflexivity.
Qed.

Lemma findExisting_fold_skip typeName result (sourceFile : SourceFile) :
  Forall (fun node => Spec.bindsIn typeName node = false) sourceFile ->
  fold_left (ImportManager.findExistingImportStep typeName) sourceFile result
  = result.
Proof.
  intros H. revert result.
  induction H as [|node rest Hnode _ IH]; intros result; cbn [fold_left].
  - reflexivity.
  - rewrite findExistingImportStep_skip by exact Hnode. apply IH.
Qed.

(** C7. The scan visits every child of the source file in order, and the
    result is the specifier and the type-only flag of the last import
    declaration whose named bindings include the type name, whatever
    stands in front of it. *)
Theorem C7_last_matching_import_wins
    (before after : SourceFile) node typeInfo :
  Spec.bindsIn (TypeInfo.name typeInfo) (ImportDecl node) = true ->
  Forall (fun later => Spec.bindsIn (TypeInfo.name typeInfo) later = false) after ->
  ImportManager.findExistingImportPath
    (before ++ ImportDecl node :: after)%list typeInfo
  = {| ExistingImport.path := moduleSpecifier node;
       ExistingImport.isTypeOnly := ImportManager.clauseIsTypeOnly node |}.
Proof.
  intros Hnode Hafter.
  unfold ImportManager.findExistingImportPath.
  rewrite fold_left_app. cbn [fold_left].
  rewrite findExistingImportStep_hit by exact Hnode.
  apply findExisting_fold_skip, Hafter.
Qed.

Lemma C7_last_match_witness :
  Spec.bindsIn "Foo" (ImportDecl Sample.lastFoo) = true
  /\ ImportManager.findExistingImportPath
       [ImportDecl Sample.firstFoo; ImportDecl Sample.lastFoo;
        ImportDecl Sample.afterFoo] Sample.foo
     = {| ExistingImport.path := "./last"; ExistingImport.isTypeOnly := false |}.
Proof.
  split; [reflexivity|].
  apply (C7_last_matching_import_wins [ImportDecl Sample.firstFoo]
           [ImportDecl Sample.afterFoo] Sample.lastFoo Sample.foo).
  - reflexivity.
  - constructor; [reflexivity | constructor].
Defined.

(** Without a matching import the result is the empty path. *)
Lemma findExistingImportPath_none (sourceFile : SourceFile) typeInfo :
  Forall (fun node => Spec.bindsIn (TypeInfo.name typeInfo) node = false) sourceFile ->
  ImportManager.findExistingImportPath sourceFile typeInfo
  = {| ExistingImport.path := ""; ExistingImport.isTypeOnly := false |}.
Proof. apply findExisting_fold_skip. Qed.

(* ===================================================================== *)
(** ** Running the rewrite again *)
(* ===================================================================== *)

Lemma flat_map_empty {A B : Type} (f : A -> list B) (l : list A) :
  (forall x, In x l -> f x = []) -> flat_map f l = [].
Proof.
  induction l as [|x rest IH]; intros H; simpl; [reflexivity|].
  rewrite (H x) by (left; reflexivity).
  apply IH. intros y Hy. apply H. right. exact Hy.
Qed.

(** C8, as amended. When an import at the new specifier binds the type
    name, every import at the new specifier that has named bindings binds
    it, and no import at the old specifier binds it, the file has no
    edits. *)
Theorem C8_rewrite_is_idempotent createSourceFile document change :
  let sourceFile :=
    createSourceFile (TextDocument.fileName document) (TextDocument.getText document) in
  (exists node elements,
      In (ImportDecl node) sourceFile
      /\ moduleSpecifier node = ImportChange.newImportPath change
      /\ ImportManager.getNamedImports node = Some elements
      /\ ImportManager.bindsName (ImportChange.typeName change) elements = true) ->
  (forall node elements,
      In (ImportDecl node) sourceFile ->
      moduleSpecifier node = ImportChange.newImportPath change ->
      ImportManager.getNamedImports node = Some elements ->
      ImportManager.bindsName (ImportChange.typeName change) elements = true) ->
  (forall node elements,
      In (ImportDecl node) sourceFile ->
      moduleSpecifier node = ImportChange.oldImportPath change ->
      ImportManager.getNamedImports node = Some elements ->
      ImportManager.bindsName (ImportChange.typeName change) elements = false) ->
  ImportManager.calculateEditsForDocument createSourceFile document change = [].
Proof.
  intros sourceFile (present & bound & Hin & Hnew & Hnamed & Hbinds) Hall Hold.
  rewrite calculateEditsForDocument_eq. fold sourceFile.
  assert (existsb (Spec.reachesNewBranch change) sourceFile = true) as ->.
  { apply existsb_exists. exists (ImportDecl present). split; [exact Hin|].
    simpl. apply andb_true_iff. split.
    - apply negb_true_iff, String.eqb_neq. intros Heq.
      rewrite (Hold _ _ Hin Heq Hnamed) in Hbinds. discriminate.
    - apply String.eqb_eq, Hnew. }
  rewrite flat_map_empty; [reflexivity|].
  intros [node|a b] Hnode; [|reflexivity].
  destruct (String.eqb (moduleSpecifier node) (ImportChange.oldImportPath change))
    eqn:Eold.
  - apply String.eqb_eq in Eold. rewrite stepEdits_old by exact Eold.
    destruct (ImportManager.getNamedImports node) as [elements|] eqn:En.
    + apply (handleOldImportPath_unbound _ _ _ _ _ En), (Hold _ _ Hnode Eold En).
    + apply getNamedImports_None_old, En.
  - apply String.eqb_neq in Eold.
    destruct (String.eqb (moduleSpecifier node) (ImportChange.newImportPath change))
      eqn:Enew.
    + apply String.eqb_eq in Enew. rewrite stepEdits_new by assumption.
      destruct (ImportManager.getNamedImports node) as [elements|] eqn:En.
      * rewrite (handleNewImportPath_named _ _ _ _ _ En).
        rewrite (Hall _ _ Hnode Enew En). reflexivity.
      * apply getNamedImports_None_new, En.
    + apply String.eqb_neq in Enew. apply stepEdits_other; assumption.
Qed.

Lemma C8_idempotent_witness :
  ImportManager.calculateEditsForDocument Sample.doneParser Sample.doneDocument
    Sample.twiceChange = [].
Proof.
  apply C8_rewrite_is_idempotent.
  - exists (Sample.importOf false ["Foo"] "./c" 27 53),
      [{| propertyName := None; name := "Foo" |}].
    split; [right; left; reflexivity|]. repeat split.
  - intros node elements [H|[H|[]]] Hspec Hnamed.
    + injection H as <-. discriminate Hspec.
    + injection H as <-. injection Hnamed as <-. reflexivity.
  - intros node elements [H|[H|[]]] Hspec Hnamed.
    + injection H as <-. injection Hnamed as <-. reflexivity.
    + injection H as <-. discriminate Hspec.
Defined.

(** C8 as worded fails for a file with two imports from the new module:
    [Foo] is bound by the first, no import at the old specifier is left,
    and the rewrite still merges [Foo] into the second. *)
Lemma C8_counterexample_second_import :
  Spec.bindsIn "Foo" (ImportDecl (Sample.importOf false ["Foo"] "./c" 0 26)) = true
  /\ In (ImportDecl (Sample.importOf false ["Foo"] "./c" 0 26))
        (Sample.twiceParser (TextDocument.fileName Sample.twiceDocument)
           (TextDocument.getText Sample.twiceDocument))
  /\ Forall (fun node =>
               match node with
               | ImportDecl node =>
                   moduleSpecifier node
                   <> ImportChange.oldImportPath Sample.twiceChange
               | OtherStatement _ _ => True
               end)
            (Sample.twiceParser (TextDocument.fileName Sample.twiceDocument)
               (TextDocument.getText Sample.twiceDocument))
  /\ ImportManager.calculateEditsForDocument Sample.twiceParser
       Sample.twiceDocument Sample.twiceChange
     = [{| ImportEdit.range := mkRange 1 0 1 31;
           ImportEdit.newText :=
             "import type { Bar, Foo } from " ++ quoted "./c" ++ ";" |}]
  /\ ImportManager.calculateEditsForDocument Sample.twiceParser
       Sample.twiceDocument Sample.twiceChange <> [].
Proof.
  split; [reflexivity|].
  split; [left; reflexivity|].
  split; [repeat constructor; discriminate|].
  split; [reflexivity | discriminate].
Qed.

(* ===================================================================== *)
(** ** Path aliases *)
(* ===================================================================== *)

Lemma matchEntries_first_match cwd absoluteBaseUrl file
    (before after : PathResolver.PathsTable) pattern target others :
  Forall (fun entry : string * list string =>
            exists t ts,
              entry.2 = t :: ts
              /\ Js.startsWith file
                   (Path.resolve cwd [absoluteBaseUrl; Js.stripTrailingStar t])
                 = false) before ->
  Js.startsWith file
    (Path.resolve cwd [absoluteBaseUrl; Js.stripTrailingStar target]) = true ->
  PathResolver.matchEntries cwd absoluteBaseUrl file
    (before ++ (pattern, target :: others) :: after)%list
  = Ok (Some (Js.stripSourceExtension
                (Js.stripTrailingStar pattern
                 ++ Path.relative cwd
                      (Path.resolve cwd [absoluteBaseUrl; Js.stripTrailingStar target])
                      file))).
Proof.
  intros Hbefore Hmatch.
  induction Hbefore as [|[p targets] rest (t & ts & Ht & Hmiss) _ IH];
    cbn [app PathResolver.matchEntries].
  - rewrite Hmatch. reflexivity.
  - simpl in Ht. subst targets. rewrite Hmiss. exact IH.
Qed.

(** C6. The patterns are tried in the order of the table and the first
    one whose target directory is a prefix of the file path gives the
    alias, with the extension of a source file removed. With the base URL
    [./src] and the single pattern [@/*] for [*], in a configuration file
    of [/root], the specifier of [/root/src/utils/helper.ts] is
    [@/utils/helper] for every importing file. *)
Theorem C6_first_matching_alias_wins :
  (forall cwd self baseUrl configDir before pattern target others after file,
      PathResolver.paths self
      = Some (before ++ (pattern, target :: others) :: after)%list ->
      PathResolver.baseUrl self = Some baseUrl -> baseUrl <> "" ->
      PathResolver.configDir self = Some configDir -> configDir <> "" ->
      Forall (fun entry : string * list string =>
                exists t ts,
                  entry.2 = t :: ts
                  /\ Js.startsWith file
                       (Spec.aliasDirectory cwd configDir baseUrl t) = false)
             before ->
      Js.startsWith file (Spec.aliasDirectory cwd configDir baseUrl target) = true ->
      PathResolver.tryMatchPathAlias cwd self file
      = Ok (Some (Js.stripSourceExtension
                    (Js.stripTrailingStar pattern
                     ++ Path.relative cwd
                          (Spec.aliasDirectory cwd configDir baseUrl target) file))))
  /\ (forall cwd fromPath,
         PathResolver.resolveImportPath cwd Sample.aliasResolver fromPath
           "/root/src/utils/helper.ts"
         = Ok "@/utils/helper").
Proof.
  split.
  - intros cwd self baseUrl configDir before pattern target others after file
      Hpaths Hbase Hbase' Hdir Hdir' Hbefore Hmatch.
    unfold PathResolver.tryMatchPathAlias. rewrite Hpaths, Hbase, Hdir.
    apply String.eqb_neq in Hbase', Hdir'.
    unfold Js.truthy. rewrite Hbase', Hdir'. cbn [negb andb].
    apply matchEntries_first_match; assumption.
  - intros cwd fromPath. reflexivity.
Qed.

Lemma C6_first_match_witness :
  PathResolver.tryMatchPathAlias "/" Sample.twoAliases "/root/src/utils/helper.ts"
  = Ok (Some "@/utils/helper").
Proof.
  apply (proj1 C6_first_matching_alias_wins "/" Sample.twoAliases "./src" "/root"
           [("@lib/*", ["lib/*"])] "@/*" "*" [] [] "/root/src/utils/helper.ts").
  - reflexivity.
  - reflexivity.
  - discriminate.
  - reflexivity.
  - discriminate.
  - constructor; [|constructor]. exists "lib/*", []. split; reflexivity.
  - reflexivity.
Defined.

(** The order of the table decides, not the length of the pattern: with
    [@/*] in front, a file under [utils] does not get the [@utils] alias. *)
Example first_pattern_beats_longer_pattern :
  PathResolver.tryMatchPathAlias "/"
    {| PathResolver.baseUrl := Some "./src";
       PathResolver.paths := Some [("@/*", ["*"]); ("@utils/*", ["utils/*"])];
       PathResolver.configDir := Some "/root" |}
    "/root/src/utils/helper.ts"
  = Ok (Some "@/utils/helper").
Proof. reflexivity. Qed.

(* ===================================================================== *)
(** ** Loading the configuration *)
(* ===================================================================== *)

Lemma load_failure_has_no_paths host workspaceRoot :
  Spec.LoadFailure host workspaceRoot ->
  PathResolver.paths (PathResolver.new host workspaceRoot) = None.
Proof.
  unfold PathResolver.new, PathResolver.loadTsConfig.
  intros [Hroot | Hpath | configPath Hpath Hexists | configPath Hpath Hread
         | configPath Hpath Hread | configPath Hpath Hread
         | configPath config Hpath Hread Hfields].
  - subst workspaceRoot. reflexivity.
  - destruct (negb (Js.truthy workspaceRoot)); [reflexivity|].
    rewrite Hpath. reflexivity.
  - destruct (negb (Js.truthy workspaceRoot)); [reflexivity|].
    rewrite Hpath, Hexists. cbn [negb]. rewrite orb_true_r. reflexivity.
  - destruct (negb (Js.truthy workspaceRoot)); [reflexivity|].
    rewrite Hpath, Hread. destruct (_ || _); reflexivity.
  - destruct (negb (Js.truthy workspaceRoot)); [reflexivity|].
    rewrite Hpath, Hread. destruct (_ || _); reflexivity.
  - destruct (negb (Js.truthy workspaceRoot)); [reflexivity|].
    rewrite Hpath, Hread. destruct (_ || _); reflexivity.
  - destruct (negb (Js.truthy workspaceRoot)); [reflexivity|].
    rewrite Hpath, Hread. destruct (_ || _); [reflexivity|].
    exact Hfields.
Qed.

Lemma no_paths_no_alias cwd self absoluteFilePath :
  PathResolver.paths self = None ->
  PathResolver.tryMatchPathAlias cwd self absoluteFilePath = Ok None.
Proof.
  intros H. unfold PathResolver.tryMatchPathAlias. rewrite H. reflexivity.
Qed.

(** C9. Whatever makes the load of the configuration fail, the
    constructor returns a resolver, for which [tryMatchPathAlias] finds no
    alias for any path and [resolveImportPath] gives the specifier
    relative to the importing file; neither call throws. *)
Theorem C9_load_failure_disables_aliases host workspaceRoot :
  Spec.LoadFailure host workspaceRoot ->
  forall cwd,
    (forall absoluteFilePath,
        PathResolver.tryMatchPathAlias cwd (PathResolver.new host workspaceRoot)
          absoluteFilePath = Ok None)
    /\ (forall fromPath toPath,
           PathResolver.resolveImportPath cwd (PathResolver.new host workspaceRoot)
             fromPath toPath
           = Ok (PathResolver.relativeSpecifier cwd fromPath toPath)).
Proof.
  intros Hfail cwd.
  pose proof (load_failure_has_no_paths _ _ Hfail) as Hpaths.
  split.
  - intros absoluteFilePath. apply no_paths_no_alias, Hpaths.
  - intros fromPath toPath. unfold PathResolver.resolveImportPath.
    rewrite (no_paths_no_alias _ _ _ Hpaths). reflexivity.
Qed.

Lemma C9_load_failure_witness :
  Spec.LoadFailure Sample.bareHost "/proj"
  /\ PathResolver.tryMatchPathAlias "/" (PathResolver.new Sample.bareHost "/proj")
       "/proj/src/c.ts" = Ok None
  /\ PathResolver.resolveImportPath "/" (PathResolver.new Sample.bareHost "/proj")
       "/proj/src/b.ts" "/proj/types/c.ts"
     = Ok (PathResolver.relativeSpecifier "/" "/proj/src/b.ts" "/proj/types/c.ts").
Proof.
  assert (Spec.LoadFailure Sample.bareHost "/proj") as Hfail.
  { apply Spec.NoConfigFile. reflexivity. }
  split; [exact Hfail|].
  destruct (C9_load_failure_disables_aliases Sample.bareHost "/proj" Hfail "/")
    as [Halias Hrelative].
  split; [apply Halias | apply Hrelative].
Defined.

(** The failures of the repository's tests: a configured file that does
    not exist, and a configuration that cannot be read. *)
Example missing_and_invalid_tsconfig :
  PathResolver.new
    {| PathResolver.tsconfigSetting := Some "./tsconfig.json";
       PathResolver.findConfigFile := fun _ => None;
       PathResolver.fileExists := fun _ => false;
       PathResolver.readConfigFile := fun _ => PathResolver.ReadError |}
    "/mock/workspace" = PathResolver.unconfigured
  /\ PathResolver.new
       {| PathResolver.tsconfigSetting := Some "./tsconfig.json";
          PathResolver.findConfigFile := fun _ => None;
          PathResolver.fileExists := fun _ => true;
          PathResolver.readConfigFile := fun _ => PathResolver.ReadError |}
       "/mock/workspace" = PathResolver.unconfigured.
Proof. split; reflexivity. Qed.

(* ===================================================================== *)
(** ** The workspace under [calculateChanges] *)
(* ===================================================================== *)

Lemma calculateChange_keeps_workspace createSourceFile cwd self typeInfo
    destinationUri importChanges ref (ws : Workspace) :
  (ImportManager.calculateChange createSourceFile cwd self typeInfo destinationUri
     importChanges ref ws).2 = ws.
Proof.
  unfold ImportManager.calculateChange, bind, openTextDocument, lift, ret.
  destruct (ws !! Location.uri ref) as [content|]; [|reflexivity].
  destruct (negb _); [reflexivity|].
  destruct (PathResolver.tryMatchPathAlias cwd _ destinationUri)
    as [[aliasPath|]|e]; [| |reflexivity].
  - destruct (Js.truthy aliasPath); [reflexivity|].
    destruct (PathResolver.resolveImportPath cwd _ _ destinationUri);
      reflexivity.
  - destruct (PathResolver.resolveImportPath cwd _ _ destinationUri);
      reflexivity.
Qed.

Lemma calculateChangesLoop_keeps_workspace createSourceFile cwd self typeInfo
    destinationUri references importChanges (ws : Workspace) :
  (ImportManager.calculateChangesLoop createSourceFile cwd self typeInfo
     destinationUri references importChanges ws).2 = ws.
Proof.
  revert importChanges.
  induction references as [|ref rest IH]; intros importChanges;
    cbn [ImportManager.calculateChangesLoop]; [reflexivity|].
  unfold bind.
  pose proof (calculateChange_keeps_workspace createSourceFile cwd self typeInfo
                destinationUri importChanges ref ws) as Hstep.
  destruct (ImportManager.calculateChange createSourceFile cwd self typeInfo
              destinationUri importChanges ref ws) as [[changes|e] ws'];
    simpl in Hstep; subst ws'; [apply IH | reflexivity].
Qed.

(** C10. For every type, source and destination, list of references and
    workspace, [calculateChanges] ends, by returning the changes or by
    throwing, in the workspace it started in: the text of every file is
    what it was. *)
Theorem C10_calculateChanges_keeps_every_file createSourceFile cwd self typeInfo
    sourceUri destinationUri references (ws : Workspace) :
  (ImportManager.calculateChanges createSourceFile cwd self typeInfo sourceUri
     destinationUri references ws).2 = ws.
Proof.
  unfold ImportManager.calculateChanges, bind, ret.
  pose proof (calculateChangesLoop_keeps_workspace createSourceFile cwd self
                typeInfo destinationUri references [] ws) as Hloop.
  destruct (ImportManager.calculateChangesLoop createSourceFile cwd self typeInfo
              destinationUri references [] ws) as [[changes|e] ws'];
    simpl in Hloop; subst ws'; reflexivity.
Qed.

(** What the call returns for the project of [a.ts] and [b.ts]: the
    reference in [a.ts] has no import to amend, the one in [b.ts] has. *)
Example calculateChanges_of_the_project :
  forall cwd,
    ImportManager.calculateChanges Sample.projectParser cwd Sample.projectManager
      Sample.foo "/proj/a.ts" "/proj/c.ts" Sample.fooReferences Sample.project
    = (Ok {| Changes.importChanges :=
               [Sample.changeOf "/proj/b.ts" "./a" "./c.ts" "Foo" false];
             Changes.typeContent := Sample.fooText |},
       Sample.project).
Proof. intros cwd. vm_compute. reflexivity. Qed.

(** [updateImports], given these changes, does rewrite [b.ts]. *)
Example updateImports_changes_the_workspace :
  (ImportManager.updateImports Sample.projectParser
     {| Changes.importChanges :=
          [Sample.changeOf "/proj/b.ts" "./a" "./c.ts" "Foo" false];
        Changes.typeContent := Sample.fooText |}
     Sample.project).2 !! "/proj/b.ts"
  = Some (nl ++ "import { Foo } from " ++ quoted "./c.ts" ++ ";" ++ nl).
Proof. vm_compute. reflexivity. Qed.

(* ===================================================================== *)
(** ** Moving [Foo] from [a.ts] to the new [c.ts] *)
(* ===================================================================== *)

(** C5, evaluated. Without aliases the specifier of [/proj/c.ts] seen
    from [/proj/b.ts] is [./c.ts]: it starts with [./] and keeps the
    extension. The move empties [a.ts] of the interface, creates [c.ts]
    with its text, and leaves [b.ts] with an empty first line followed by
    the import of [Foo] from [./c.ts]. *)
Theorem C5_move_to_sibling_keeps_extension :
  forall cwd,
    PathResolver.resolveImportPath cwd
      (ImportManager.pathResolver Sample.projectManager) "/proj/b.ts" "/proj/c.ts"
    = Ok "./c.ts"
    /\ let run :=
         MoveType.moveType Sample.projectParser cwd Sample.projectManager
           Sample.foo (Sample.documentOf "/proj/a.ts" Sample.aText) "/proj/c.ts"
           Sample.fooReferences Sample.project in
       run.1 = Ok MoveType.Moved
       /\ run.2 !! "/proj/a.ts" = Some nl
       /\ run.2 !! "/proj/c.ts" = Some "export interface Foo { id: string }"
       /\ run.2 !! "/proj/b.ts"
          = Some (nl ++ "import { Foo } from " ++ quoted "./c.ts" ++ ";" ++ nl).
Proof. intros cwd. repeat split; vm_compute; reflexivity. Qed.

(** The relative specifier of the repository's own test keeps the
    extension as well. *)
Example relative_specifier_outside_base_url :
  PathResolver.relativeSpecifier "/" "/mock/workspace/src/components/Button.ts"
    "/mock/workspace/outside/helper.ts"
  = "../../outside/helper.ts".
Proof. reflexivity. Qed.

(* ===================================================================== *)
(** ** What the current revision changed *)
(* ===================================================================== *)

(** The earlier revision merged a type-only move into a regular import
    without the [type] keyword; the current one writes it. *)
Example earlier_merge_follows_the_declaration :
  map ImportEdit.newText
    (ImportManager.editsToApply
       (Earlier.scanStep Sample.mergeDocument
          (Sample.changeOf "/proj/use.ts" "./old" "p" "Y" true)
          Spec.initialScan (ImportDecl Sample.mergeImport)))
  = ["import { X, Y } from 'p';"]
  /\ map ImportEdit.newText
       (ImportManager.editsToApply
          (ImportManager.scanStep Sample.mergeDocument
             (Sample.changeOf "/proj/use.ts" "./old" "p" "Y" true)
             Spec.initialScan (ImportDecl Sample.mergeImport)))
     = ["import type { X, Y } from " ++ quoted "p" ++ ";"].
Proof. split; reflexivity. Qed.

(** The earlier revision reported the flag of the last import clause of
    the file; [findExistingImportPath] reports the one of the last import
    that binds the name. *)
Example earlier_flag_is_of_the_last_clause :
  fold_left (Earlier.existingImportStep "Foo")
    [ImportDecl Sample.firstFoo; ImportDecl Sample.lastFoo;
     ImportDecl Sample.afterFoo]
    {| ExistingImport.path := ""; ExistingImport.isTypeOnly := false |}
  = {| ExistingImport.path := "./last"; ExistingImport.isTypeOnly := true |}
  /\ ImportManager.findExistingImportPath
       [ImportDecl Sample.firstFoo; ImportDecl Sample.lastFoo;
        ImportDecl Sample.afterFoo] Sample.foo
     = {| ExistingImport.path := "./last"; ExistingImport.isTypeOnly := false |}.
Proof. split; reflexivity. Qed.

(* ===================================================================== *)
(** ** More about the edits of a file *)
(* ===================================================================== *)

Lemma handleOldImportPath_sole node document change edits el :
  ImportManager.getNamedImports node = Some [el] ->
  name el = ImportChange.typeName change ->
  ImportManager.handleOldImportPath node document change edits
  = (edits ++ [ImportManager.createEdit (getStart node) (getEnd node) "" document])%list.
Proof.
  intros H Hname.
  destruct (getNamedImports_Some _ _ H) as (clause & Hc & Hn & _).
  unfold ImportManager.handleOldImportPath. rewrite Hc, Hn, Hname.
  rewrite String.eqb_refl. reflexivity.
Qed.

(** X1. An import at the old specifier whose only named binding is the
    moved type is removed: one edit replaces its range by the empty
    text. *)
Theorem sole_binding_import_is_removed
    createSourceFile document change node el :
  In (ImportDecl node)
     (createSourceFile (TextDocument.fileName document)
        (TextDocument.getText document)) ->
  moduleSpecifier node = ImportChange.oldImportPath change ->
  ImportManager.getNamedImports node = Some [el] ->
  name el = ImportChange.typeName change ->
  In {| ImportEdit.range := Spec.nodeRange document node;
        ImportEdit.newText := "" |}
     (ImportManager.calculateEditsForDocument createSourceFile document change).
Proof.
  intros Hin Hold Hnamed Hname.
  apply pushed_edit_is_calculated with (node := ImportDecl node); [exact Hin|].
  rewrite stepEdits_old by exact Hold.
  rewrite (handleOldImportPath_sole _ _ _ _ _ Hnamed Hname).
  left. reflexivity.
Qed.

Lemma sole_binding_import_is_removed_witness :
  In {| ImportEdit.range := mkRange 0 0 0 26; ImportEdit.newText := "" |}
     (ImportManager.calculateEditsForDocument SampleMore.soleParser
        SampleMore.soleDocument Sample.twiceChange).
Proof.
  apply (sole_binding_import_is_removed SampleMore.soleParser
           SampleMore.soleDocument Sample.twiceChange SampleMore.soleImport
           {| propertyName := None; name := "Foo" |}).
  - left; reflexivity.
  - reflexivity.
  - reflexivity.
  - reflexivity.
Defined.

Lemma Sorted_weaken {A : Type} (R R' : A -> A -> Prop) (l : list A) :
  (forall a b, R a b -> R' a b) -> Sorted R l -> Sorted R' l.
Proof.
  intros Himpl H. induction H as [|a l Hl IH Hhd]; constructor.
  - exact IH.
  - destruct Hhd; constructor. apply Himpl. assumption.
Qed.

(** X2. The edits of a file are ordered from the last line to the first:
    no edit stands in front of an edit that starts on a later line. *)
Theorem edits_are_ordered_from_the_last_line createSourceFile document change :
  StronglySorted SpecMore.fromLastLine
    (ImportManager.calculateEditsForDocument createSourceFile document change).
Proof.
  apply Sorted_StronglySorted.
  - intros a b c Hab Hbc. unfold SpecMore.fromLastLine in *. lia.
  - unfold ImportManager.calculateEditsForDocument.
    apply Sorted_weaken
      with (R := fun u v => ImportManager.laterLineFirst u v = true).
    + intros a b H. apply Nat.leb_le in H. exact H.
    + apply sortBy_sorted. intros a b.
      unfold ImportManager.laterLineFirst.
      destruct (Nat.le_ge_cases (line (start (ImportEdit.range b)))
                  (line (start (ImportEdit.range a)))) as [H|H];
        [left | right]; apply Nat.leb_le; exact H.
Qed.

Lemma handleOldImportPath_shape node document change :
  ImportManager.handleOldImportPath node document change [] = []
  \/ exists newText,
       ImportManager.getNamedImports node <> None
       /\ ImportManager.handleOldImportPath node document change []
          = [ImportManager.createEdit (getStart node) (getEnd node) newText document].
Proof.
  unfold ImportManager.handleOldImportPath, ImportManager.getNamedImports.
  destruct (importClause node) as [clause|]; simpl; [|left; reflexivity].
  destruct (namedBindings clause) as [[alias|elements]|];
    try (left; reflexivity).
  destruct (match elements with [el] => _ | _ => false end).
  - right. eexists. split; [discriminate | reflexivity].
  - destruct (ImportManager.bindsName _ elements); [|left; reflexivity].
    right. eexists. split; [discriminate | reflexivity].
Qed.

Lemma handleNewImportPath_shape node document change :
  ImportManager.handleNewImportPath node document change [] = []
  \/ exists newText,
       ImportManager.getNamedImports node <> None
       /\ ImportManager.handleNewImportPath node document change []
          = [ImportManager.createEdit (getStart node) (getEnd node) newText document].
Proof.
  unfold ImportManager.handleNewImportPath, ImportManager.getNamedImports.
  destruct (importClause node) as [clause|]; simpl; [|left; reflexivity].
  destruct (namedBindings clause) as [[alias|elements]|];
    try (left; reflexivity).
  destruct (ImportManager.bindsName _ elements); [left; reflexivity|].
  right. eexists. split; [discriminate | reflexivity].
Qed.

Lemma stepEdits_inv document change statement edit :
  In edit (Spec.stepEdits document change statement) ->
  exists node,
    statement = ImportDecl node
    /\ (moduleSpecifier node = ImportChange.oldImportPath change
        \/ moduleSpecifier node = ImportChange.newImportPath change)
    /\ ImportManager.getNamedImports node <> None
    /\ ImportEdit.range edit = Spec.nodeRange document node.
Proof.
  destruct statement as [node|a b]; [|intros []].
  intros Hin. exists node. split; [reflexivity|].
  destruct (String.eqb (moduleSpecifier node) (ImportChange.oldImportPath change))
    eqn:Eold.
  - apply String.eqb_eq in Eold. rewrite stepEdits_old in Hin by exact Eold.
    destruct (handleOldImportPath_shape node document change)
      as [Hnil|(text & Hnamed & Hone)].
    + rewrite Hnil in Hin. destruct Hin.
    + rewrite Hone in Hin. destruct Hin as [<-|[]]. auto.
  - apply String.eqb_neq in Eold.
    destruct (String.eqb (moduleSpecifier node) (ImportChange.newImportPath change))
      eqn:Enew.
    + apply String.eqb_eq in Enew.
      rewrite stepEdits_new in Hin by assumption.
      destruct (handleNewImportPath_shape node document change)
        as [Hnil|(text & Hnamed & Hone)].
      * rewrite Hnil in Hin. destruct Hin.
      * rewrite Hone in Hin. destruct Hin as [<-|[]]. auto.
    + apply String.eqb_neq in Enew.
      rewrite stepEdits_other in Hin by assumption. destruct Hin.
Qed.

(** X3. Every edit of a file is either the insertion of the synthesized
    import, or the replacement of the whole range of one import
    declaration of the file that has a named-import list and whose
    specifier is the old or the new one: no other text is touched. *)
Theorem edits_touch_only_old_and_new_imports
    createSourceFile document change edit :
  In edit (ImportManager.calculateEditsForDocument createSourceFile document change) ->
  edit = SpecMore.synthesizedEdit document change
           (Spec.lastImportEnd 0
              (createSourceFile (TextDocument.fileName document)
                 (TextDocument.getText document)))
  \/ exists node,
       In (ImportDecl node)
          (createSourceFile (TextDocument.fileName document)
             (TextDocument.getText document))
       /\ (moduleSpecifier node = ImportChange.oldImportPath change
           \/ moduleSpecifier node = ImportChange.newImportPath change)
       /\ ImportManager.getNamedImports node <> None
       /\ ImportEdit.range edit = Spec.nodeRange document node.
Proof.
  rewrite calculateEditsForDocument_eq. intros Hin.
  apply sortBy_In in Hin.
  assert (forall e,
             In e (flat_map (Spec.stepEdits document change)
                     (createSourceFile (TextDocument.fileName document)
                        (TextDocument.getText document))) ->
             exists node,
               In (ImportDecl node)
                  (createSourceFile (TextDocument.fileName document)
                     (TextDocument.getText document))
               /\ (moduleSpecifier node = ImportChange.oldImportPath change
                   \/ moduleSpecifier node = ImportChange.newImportPath change)
               /\ ImportManager.getNamedImports node <> None
               /\ ImportEdit.range e = Spec.nodeRange document node) as Hpushed.
  { intros e He. apply in_flat_map in He. destruct He as (statement & Hs & He).
    destruct (stepEdits_inv _ _ _ _ He) as (node & -> & Hrest).
    exists node. split; [exact Hs | exact Hrest]. }
  destruct (existsb _ _).
  - right. apply Hpushed, Hin.
  - unfold ImportManager.addNewImport in Hin. apply in_app_or in Hin.
    destruct Hin as [Hin|[<-|[]]].
    + right. apply Hpushed, Hin.
    + left. reflexivity.
Qed.

Lemma edits_touch_only_old_and_new_imports_witness :
  In {| ImportEdit.range := mkRange 0 0 0 22;
        ImportEdit.newText := "import { X, Y } from " ++ quoted "p" ++ ";" |}
     (ImportManager.calculateEditsForDocument Sample.mergeParser
        Sample.mergeDocument Sample.mergeChange)
  /\ exists node,
       In (ImportDecl node)
          (Sample.mergeParser (TextDocument.fileName Sample.mergeDocument)
             (TextDocument.getText Sample.mergeDocument))
       /\ mkRange 0 0 0 22 = Spec.nodeRange Sample.mergeDocument node.
Proof.
  assert (In {| ImportEdit.range := mkRange 0 0 0 22;
                ImportEdit.newText := "import { X, Y } from " ++ quoted "p" ++ ";" |}
             (ImportManager.calculateEditsForDocument Sample.mergeParser
                Sample.mergeDocument Sample.mergeChange)) as Hin.
  { left. reflexivity. }
  split; [exact Hin|].
  destruct (edits_touch_only_old_and_new_imports _ _ _ _ Hin)
    as [Hsynth|(node & Hnode & _ & _ & Hrange)].
  - discriminate Hsynth.
  - exists node. split; [exact Hnode | exact Hrange].
Defined.

(** The file needs no edit when an import at the new specifier is there,
    every named-import list at the new specifier binds the name and none
    at the old specifier does. *)
Lemma nothing_to_rewrite createSourceFile document change :
  let sourceFile :=
    createSourceFile (TextDocument.fileName document) (TextDocument.getText document) in
  (exists node,
      In (ImportDecl node) sourceFile
      /\ moduleSpecifier node = ImportChange.newImportPath change
      /\ moduleSpecifier node <> ImportChange.oldImportPath change) ->
  (forall node elements,
      In (ImportDecl node) sourceFile ->
      moduleSpecifier node = ImportChange.newImportPath change ->
      ImportManager.getNamedImports node = Some elements ->
      ImportManager.bindsName (ImportChange.typeName change) elements = true) ->
  (forall node elements,
      In (ImportDecl node) sourceFile ->
      moduleSpecifier node = ImportChange.oldImportPath change ->
      ImportManager.getNamedImports node = Some elements ->
      ImportManager.bindsName (ImportChange.typeName change) elements = false) ->
  ImportManager.calculateEditsForDocument createSourceFile document change = [].
Proof.
  intros sourceFile (present & Hin & Hnew & Hne) Hall Hold.
  rewrite calculateEditsForDocument_eq. fold sourceFile.
  assert (existsb (Spec.reachesNewBranch change) sourceFile = true) as ->.
  { apply existsb_exists. exists (ImportDecl present). split; [exact Hin|].
    simpl. apply andb_true_iff. split.
    - apply negb_true_iff, String.eqb_neq, Hne.
    - apply String.eqb_eq, Hnew. }
  rewrite flat_map_empty; [reflexivity|].
  intros [node|a b] Hnode; [|reflexivity].
  destruct (String.eqb (moduleSpecifier node) (ImportChange.oldImportPath change))
    eqn:Eold.
  - apply String.eqb_eq in Eold. rewrite stepEdits_old by exact Eold.
    destruct (ImportManager.getNamedImports node) as [elements|] eqn:En.
    + apply (handleOldImportPath_unbound _ _ _ _ _ En), (Hold _ _ Hnode Eold En).
    + apply getNamedImports_None_old, En.
  - apply String.eqb_neq in Eold.
    destruct (String.eqb (moduleSpecifier node) (ImportChange.newImportPath change))
      eqn:Enew.
    + apply String.eqb_eq in Enew. rewrite stepEdits_new by assumption.
      destruct (ImportManager.getNamedImports node) as [elements|] eqn:En.
      * rewrite (handleNewImportPath_named _ _ _ _ _ En).
        rewrite (Hall _ _ Hnode Enew En). reflexivity.
      * apply getNamedImports_None_new, En.
    + apply String.eqb_neq in Enew. apply stepEdits_other; assumption.
Qed.

(** X4. An import at the new specifier counts as the existing import
    even when it has no named-import list (a namespace, default or
    side-effect import): when all imports at the new specifier are such,
    and no import at the old specifier binds the name, the file gets no
    edit at all, so the moved type is imported nowhere. *)
Theorem import_without_named_bindings_suppresses_new_import
    createSourceFile document change :
  let sourceFile :=
    createSourceFile (TextDocument.fileName document) (TextDocument.getText document) in
  (exists node,
      In (ImportDecl node) sourceFile
      /\ moduleSpecifier node = ImportChange.newImportPath change
      /\ moduleSpecifier node <> ImportChange.oldImportPath change) ->
  (forall node,
      In (ImportDecl node) sourceFile ->
      moduleSpecifier node = ImportChange.newImportPath change ->
      ImportManager.getNamedImports node = None) ->
  (forall node elements,
      In (ImportDecl node) sourceFile ->
      moduleSpecifier node = ImportChange.oldImportPath change ->
      ImportManager.getNamedImports node = Some elements ->
      ImportManager.bindsName (ImportChange.typeName change) elements = false) ->
  ImportManager.calculateEditsForDocument createSourceFile document change = [].
Proof.
  intros sourceFile Hpresent Hunnamed Hold.
  apply nothing_to_rewrite; [exact Hpresent | | exact Hold].
  intros node elements Hin Hnew Hnamed.
  rewrite (Hunnamed node Hin Hnew) in Hnamed. discriminate.
Qed.

Lemma import_without_named_bindings_witness :
  ImportManager.calculateEditsForDocument SampleMore.namespaceParser
    SampleMore.namespaceDocument Sample.twiceChange = [].
Proof.
  apply import_without_named_bindings_suppresses_new_import.
  - exists SampleMore.namespaceImport.
    split; [left; reflexivity|]. split; [reflexivity | discriminate].
  - intros node [H|[]] _. injection H as <-. reflexivity.
  - intros node elements [H|[]] Hspec _. injection H as <-. discriminate Hspec.
Defined.

Lemma bindsName_erased typeName (elements : list ImportSpecifier) :
  ImportManager.bindsName typeName
    (map (fun el => {| propertyName := None; name := name el |}) elements)
  = ImportManager.bindsName typeName elements.
Proof.
  unfold ImportManager.bindsName.
  induction elements as [|el rest IH]; simpl; [reflexivity|].
  now rewrite IH.
Qed.

Lemma names_erased (elements : list ImportSpecifier) :
  map name (map (fun el => {| propertyName := None; name := name el |}) elements)
  = map name elements.
Proof. rewrite map_map. reflexivity. Qed.

Lemma remaining_erased typeName (elements : list ImportSpecifier) :
  map name
    (List.filter (fun el => negb (String.eqb (name el) typeName))
       (map (fun el => {| propertyName := None; name := name el |}) elements))
  = map name
      (List.filter (fun el => negb (String.eqb (name el) typeName)) elements).
Proof.
  induction elements as [|el rest IH]; simpl; [reflexivity|].
  destruct (String.eqb (name el) typeName); simpl; now rewrite IH.
Qed.

Lemma handleOldImportPath_erased node document change edits :
  ImportManager.handleOldImportPath (SpecMore.eraseAliases node) document change edits
  = ImportManager.handleOldImportPath node document change edits.
Proof.
  unfold ImportManager.handleOldImportPath, SpecMore.eraseAliases. simpl.
  destruct (importClause node) as [clause|]; [|reflexivity]. simpl.
  destruct (namedBindings clause) as [[alias|elements]|]; try reflexivity.
  rewrite bindsName_erased, remaining_erased.
  destruct elements as [|el [|el' rest]]; reflexivity.
Qed.

Lemma handleNewImportPath_erased node document change edits :
  ImportManager.handleNewImportPath (SpecMore.eraseAliases node) document change edits
  = ImportManager.handleNewImportPath node document change edits.
Proof.
  unfold ImportManager.handleNewImportPath, SpecMore.eraseAliases. simpl.
  destruct (importClause node) as [clause|]; [|reflexivity]. simpl.
  destruct (namedBindings clause) as [[alias|elements]|]; try reflexivity.
  rewrite bindsName_erased, names_erased. reflexivity.
Qed.

Lemma scanStep_erased document change scan statement :
  ImportManager.scanStep document change scan (SpecMore.eraseStatement statement)
  = ImportManager.scanStep document change scan statement.
Proof.
  destruct statement as [node|a b]; [|reflexivity].
  unfold ImportManager.scanStep, SpecMore.eraseStatement.
  rewrite handleOldImportPath_erased, handleNewImportPath_erased. reflexivity.
Qed.

Lemma scan_fold_erased document change (sourceFile : SourceFile) scan :
  fold_left (ImportManager.scanStep document change)
    (map SpecMore.eraseStatement sourceFile) scan
  = fold_left (ImportManager.scanStep document change) sourceFile scan.
Proof.
  revert scan. induction sourceFile as [|statement rest IH]; intros scan;
    cbn [map fold_left]; [reflexivity|].
  rewrite scanStep_erased. apply IH.
Qed.

(** X5. The edits of a file depend on the bound names of its imports
    only: a default binding, and the imported name of an [A as B] element,
    play no part, so a rewritten import statement carries neither. *)
Theorem rewritten_imports_drop_default_and_renamed_bindings
    createSourceFile document change :
  ImportManager.calculateEditsForDocument
    (fun fileName text => map SpecMore.eraseStatement (createSourceFile fileName text))
    document change
  = ImportManager.calculateEditsForDocument createSourceFile document change.
Proof.
  unfold ImportManager.calculateEditsForDocument, ImportManager.scanDocument.
  rewrite scan_fold_erased. reflexivity.
Qed.

(** [import D, { A as B } from "p"] after the merge of [Y]. *)
Example merge_loses_default_and_renamed_bindings :
  map ImportEdit.newText
    (ImportManager.calculateEditsForDocument SampleMore.renamedParser
       SampleMore.renamedDocument Sample.mergeChange)
  = ["import { B, Y } from " ++ quoted "p" ++ ";"].
Proof. reflexivity. Qed.

(* ===================================================================== *)
(** ** More about the existing import and the changes of a move *)
(* ===================================================================== *)

Lemma findExisting_fold_sound typeName (sourceFile : SourceFile) start :
  let result :=
    fold_left (ImportManager.findExistingImportStep typeName) sourceFile start in
  result = start
  \/ exists node,
       In (ImportDecl node) sourceFile
       /\ Spec.bindsIn typeName (ImportDecl node) = true
       /\ result = {| ExistingImport.path := moduleSpecifier node;
                      ExistingImport.isTypeOnly := ImportManager.clauseIsTypeOnly node |}.
Proof.
  revert start. induction sourceFile as [|statement rest IH]; intros start;
    cbn [fold_left]; [left; reflexivity|].
  destruct (IH (ImportManager.findExistingImportStep typeName start statement))
    as [Hsame|(node & Hin & Hb & Hres)].
  - rewrite Hsame.
    destruct (Spec.bindsIn typeName statement) eqn:Hb.
    + destruct statement as [node|a b]; [|discriminate].
      right. exists node. split; [left; reflexivity|]. split; [exact Hb|].
      apply findExistingImportStep_hit, Hb.
    + left. apply findExistingImportStep_skip, Hb.
  - right. exists node. split; [right; exact Hin|]. split; assumption.
Qed.

(** X6. What [findExistingImportPath] reports is either the empty path
    with the flag off, or the specifier and the type-only flag of one
    import declaration of the file whose named bindings include the
    name. *)
Theorem existing_import_comes_from_the_file (sourceFile : SourceFile) typeInfo :
  ImportManager.findExistingImportPath sourceFile typeInfo
  = {| ExistingImport.path := ""; ExistingImport.isTypeOnly := false |}
  \/ exists node,
       In (ImportDecl node) sourceFile
       /\ Spec.bindsIn (TypeInfo.name typeInfo) (ImportDecl node) = true
       /\ ImportManager.findExistingImportPath sourceFile typeInfo
          = {| ExistingImport.path := moduleSpecifier node;
               ExistingImport.isTypeOnly := ImportManager.clauseIsTypeOnly node |}.
Proof. apply findExisting_fold_sound. Qed.

Lemma calculateChange_cases createSourceFile cwd self typeInfo destinationUri
    importChanges ref (ws : Workspace) :
  let run :=
    ImportManager.calculateChange createSourceFile cwd self typeInfo destinationUri
      importChanges ref ws in
  run.2 = ws
  /\ (ws !! Location.uri ref = None -> run.1 = Throw (CannotOpen (Location.uri ref)))
  /\ ((exists e, run.1 = Throw e)
      \/ run.1 = Ok importChanges
      \/ exists change,
           run.1 = Ok (importChanges ++ [change])%list
           /\ SpecMore.amends createSourceFile typeInfo [ref] ws change).
Proof.
  intros run. split; [apply calculateChange_keeps_workspace|].
  subst run.
  unfold ImportManager.calculateChange, bind, openTextDocument, lift, ret.
  destruct (ws !! Location.uri ref) as [content|] eqn:Hfile;
    [|split; [reflexivity | left; eexists; reflexivity]].
  split; [discriminate|].
  destruct (negb _) eqn:Hold; [right; left; reflexivity|].
  assert (forall new,
             SpecMore.amends createSourceFile typeInfo [ref] ws
               {| ImportChange.uri := Location.uri ref;
                  ImportChange.oldImportPath :=
                    ExistingImport.path
                      (ImportManager.findExistingImportPath
                         (createSourceFile (Location.uri ref) content) typeInfo);
                  ImportChange.newImportPath := new;
                  ImportChange.typeName := TypeInfo.name typeInfo;
                  ImportChange.isTypeOnly :=
                    ExistingImport.isTypeOnly
                      (ImportManager.findExistingImportPath
                         (createSourceFile (Location.uri ref) content) typeInfo) |})
    as Hamends.
  { intros new. unfold SpecMore.amends. cbn.
    split.
    - apply negb_false_iff in Hold. unfold Js.truthy in Hold.
      apply negb_true_iff, String.eqb_neq in Hold. exact Hold.
    - split; [reflexivity|]. split; [left; reflexivity|].
      exists content. split; [exact Hfile|].
      destruct (ImportManager.findExistingImportPath _ typeInfo); reflexivity. }
  destruct (PathResolver.tryMatchPathAlias cwd _ destinationUri)
    as [[aliasPath|]|e]; [| |left; eexists; reflexivity].
  - destruct (Js.truthy aliasPath).
    + right. right. eexists. split; [reflexivity | apply Hamends].
    + destruct (PathResolver.resolveImportPath cwd _ _ destinationUri);
        [|left; eexists; reflexivity].
      right. right. eexists. split; [reflexivity | apply Hamends].
  - destruct (PathResolver.resolveImportPath cwd _ _ destinationUri);
      [|left; eexists; reflexivity].
    right. right. eexists. split; [reflexivity | apply Hamends].
Qed.

Lemma amends_more_references createSourceFile typeInfo ref references ws change :
  In ref references ->
  SpecMore.amends createSourceFile typeInfo [ref] ws change ->
  SpecMore.amends createSourceFile typeInfo references ws change.
Proof.
  intros Hin (Hold & Hname & Huri & Htext).
  split; [exact Hold|]. split; [exact Hname|]. split; [|exact Htext].
  destruct Huri as [<-|[]]. apply in_map, Hin.
Qed.

Lemma calculateChangesLoop_sound createSourceFile cwd self typeInfo destinationUri
    all references importChanges (ws : Workspace) changes ws' :
  (forall ref, In ref references -> In ref all) ->
  Forall (SpecMore.amends createSourceFile typeInfo all ws) importChanges ->
  ImportManager.calculateChangesLoop createSourceFile cwd self typeInfo
    destinationUri references importChanges ws = (Ok changes, ws') ->
  Forall (SpecMore.amends createSourceFile typeInfo all ws) changes
  /\ length changes <= length importChanges + length references.
Proof.
  revert importChanges.
  induction references as [|ref rest IH]; intros importChanges Hsub Hacc;
    cbn [ImportManager.calculateChangesLoop].
  - unfold ret. intros [= <- _]. split; [exact Hacc | simpl; lia].
  - unfold bind.
    destruct (calculateChange_cases createSourceFile cwd self typeInfo
                destinationUri importChanges ref ws) as (Hws & _ & Hcases).
    destruct (ImportManager.calculateChange createSourceFile cwd self typeInfo
                destinationUri importChanges ref ws) as [[next|e] ws1];
      simpl in Hws, Hcases; subst ws1; [|discriminate].
    intros Hrun.
    assert (forall r, In r rest -> In r all) as Hsub'
      by (intros r Hr; apply Hsub; right; exact Hr).
    destruct Hcases as [(e & He)|[Hsame|(change & Hnext & Hamends)]].
    + discriminate He.
    + injection Hsame as ->.
      destruct (IH _ Hsub' Hacc Hrun) as [Hall Hlen]. split; [exact Hall|].
      simpl. lia.
    + injection Hnext as ->.
      assert (Forall (SpecMore.amends createSourceFile typeInfo all ws)
                (importChanges ++ [change])) as Hacc'.
      { apply Forall_app. split; [exact Hacc|]. constructor; [|constructor].
        apply amends_more_references with (ref := ref); [|exact Hamends].
        apply Hsub. left. reflexivity. }
      destruct (IH _ Hsub' Hacc' Hrun) as [Hall Hlen]. split; [exact Hall|].
      rewrite length_app in Hlen. simpl in *. lia.
Qed.

(** X7. When [calculateChanges] returns, every change it lists amends an
    import that is there: its file is the file of a reference, its type
    name is the moved one, and its old specifier (never empty) and
    type-only flag are what [findExistingImportPath] reports for that
    file. There is at most one change for each reference, and the content
    is the text of the declaration. *)
Theorem calculated_changes_amend_existing_imports createSourceFile cwd self
    typeInfo sourceUri destinationUri references (ws ws' : Workspace) changes :
  ImportManager.calculateChanges createSourceFile cwd self typeInfo sourceUri
    destinationUri references ws = (Ok changes, ws') ->
  Forall (SpecMore.amends createSourceFile typeInfo references ws)
    (Changes.importChanges changes)
  /\ length (Changes.importChanges changes) <= length references
  /\ Changes.typeContent changes = Node.getText (TypeInfo.node typeInfo).
Proof.
  unfold ImportManager.calculateChanges, bind, ret.
  destruct (ImportManager.calculateChangesLoop createSourceFile cwd self typeInfo
              destinationUri references [] ws) as [[listed|e] ws1] eqn:Hloop;
    [|discriminate].
  intros [= <- _]. cbn.
  destruct (calculateChangesLoop_sound createSourceFile cwd self typeInfo
              destinationUri references references [] ws listed ws1)
    as [Hall Hlen]; auto.
Qed.

Lemma calculated_changes_witness :
  Forall (SpecMore.amends Sample.projectParser Sample.foo Sample.fooReferences
            Sample.project)
    [Sample.changeOf "/proj/b.ts" "./a" "./c.ts" "Foo" false]
  /\ 1 <= length Sample.fooReferences.
Proof.
  destruct (calculated_changes_amend_existing_imports Sample.projectParser "/"
              Sample.projectManager Sample.foo "/proj/a.ts" "/proj/c.ts"
              Sample.fooReferences Sample.project Sample.project
              {| Changes.importChanges :=
                   [Sample.changeOf "/proj/b.ts" "./a" "./c.ts" "Foo" false];
                 Changes.typeContent := Sample.fooText |})
    as (Hall & Hlen & _).
  - vm_compute. reflexivity.
  - split; [exact Hall | exact Hlen].
Defined.

Lemma calculateChangesLoop_rejects createSourceFile cwd self typeInfo
    destinationUri references importChanges (ws : Workspace) :
  (exists ref, In ref references /\ ws !! Location.uri ref = None) ->
  exists e,
    (ImportManager.calculateChangesLoop createSourceFile cwd self typeInfo
       destinationUri references importChanges ws).1 = Throw e.
Proof.
  revert importChanges.
  induction references as [|ref rest IH]; intros importChanges (bad & Hin & Hbad);
    [destruct Hin|].
  cbn [ImportManager.calculateChangesLoop]. unfold bind.
  destruct (calculateChange_cases createSourceFile cwd self typeInfo
              destinationUri importChanges ref ws) as (Hws & Hmissing & _).
  destruct (ImportManager.calculateChange createSourceFile cwd self typeInfo
              destinationUri importChanges ref ws) as [[next|e] ws1];
    simpl in Hws, Hmissing; subst ws1; [|eexists; reflexivity].
  destruct Hin as [->|Hin].
  - specialize (Hmissing Hbad). discriminate.
  - apply IH. exists bad. split; assumption.
Qed.

(** X8. When the file of one of the references cannot be opened,
    [calculateChanges] rejects: it returns no partial list of changes. *)
Theorem calculateChanges_rejects_on_unopenable_reference createSourceFile cwd self
    typeInfo sourceUri destinationUri references (ws : Workspace) :
  (exists ref, In ref references /\ ws !! Location.uri ref = None) ->
  exists e,
    (ImportManager.calculateChanges createSourceFile cwd self typeInfo sourceUri
       destinationUri references ws).1 = Throw e.
Proof.
  intros Hbad.
  destruct (calculateChangesLoop_rejects createSourceFile cwd self typeInfo
              destinationUri references [] ws Hbad) as (e & He).
  exists e. unfold ImportManager.calculateChanges, bind.
  destruct (ImportManager.calculateChangesLoop createSourceFile cwd self typeInfo
              destinationUri references [] ws) as [[listed|e'] ws1];
    simpl in He; [discriminate | simpl; congruence].
Qed.

Lemma calculateChanges_rejects_witness :
  exists e,
    (ImportManager.calculateChanges Sample.projectParser "/" Sample.projectManager
       Sample.foo "/proj/a.ts" "/proj/c.ts" SampleMore.strayReferences
       Sample.project).1
    = Throw e.
Proof.
  apply calculateChanges_rejects_on_unopenable_reference.
  exists {| Location.uri := "/proj/gone.ts"; Location.range := mkRange 0 0 0 3 |}.
  split; [right; left; reflexivity | reflexivity].
Defined.

(* ===================================================================== *)
(** ** Facts about documents and transactions *)
(* ===================================================================== *)



Lemma positionFrom_shift (text : string) (n l c : nat) :
  TextDocument.positionFrom text n l c
  = let p := TextDocument.positionFrom text n 0 0 in
    {| line := l + line p;
       character := match line p with
                    | 0 => c + character p
                    | S _ => character p
                    end |}.
Proof.
  revert n l c. induction text as [|ch rest IH]; intros [|n] l c; simpl;
    try (f_equal; lia).
  destruct (Ascii.eqb ch LF).
  - rewrite (IH n (S l) 0), (IH n 1 0). simpl.
    destruct (line (TextDocument.positionFrom rest n 0 0)); simpl; f_equal; lia.
  - rewrite (IH n l (S c)), (IH n 0 1). simpl.
    destruct (line (TextDocument.positionFrom rest n 0 0)); simpl; f_equal; lia.
Qed.

(** The offset of the position of an offset of the text is that offset. *)
Lemma offset_of_position (text : string) (n : nat) :
  n <= String.length text ->
  TextDocument.offsetIn text
    (line (TextDocument.positionFrom text n 0 0))
    (character (TextDocument.positionFrom text n 0 0)) = n.
Proof.
  revert n. induction text as [|ch rest IH]; intros [|n] Hn; simpl in *;
    try reflexivity; try lia.
  specialize (IH n ltac:(lia)).
  destruct (Ascii.eqb ch LF) eqn:E.
  - rewrite (positionFrom_shift rest n 1 0).
    destruct (TextDocument.positionFrom rest n 0 0) as [l c].
    cbn [line character] in *. cbn.
    destruct l; cbn; rewrite IH; reflexivity.
  - rewrite (positionFrom_shift rest n 0 1).
    destruct (TextDocument.positionFrom rest n 0 0) as [l c].
    cbn [line character] in *.
    destruct l; cbn; rewrite IH; reflexivity.
Qed.

Lemma offset_of_origin (text : string) : TextDocument.offsetIn text 0 0 = 0.
Proof. destruct text; reflexivity. Qed.

(** One replacement of the text between two offsets. *)
Lemma applyTextEdits_between (content newText : string) (a b : nat) :
  a <= b -> b <= String.length content ->
  Editor.applyTextEdits content
    [(rangeOf (TextDocument.positionFrom content a 0 0)
              (TextDocument.positionFrom content b 0 0), newText)]
  = Some (String.substring 0 a content ++ newText
          ++ String.substring b (String.length content - b) content).
Proof.
  intros Hab Hb.
  unfold Editor.applyTextEdits, Editor.spanOf. cbn [map rangeOf start stop fst snd].
  rewrite (offset_of_position content a) by lia.
  rewrite (offset_of_position content b) by lia.
  rewrite Nat.min_l, Nat.max_r by lia.
  cbn. rewrite Nat.sub_0_r. reflexivity.
Qed.

Lemma createFiles_without_creation (ops : WorkspaceEdit) (ws : Workspace) :
  Forall (fun op => match op with Replace _ _ _ => True | CreateFile _ _ => False end)
    ops ->
  Editor.createFiles ops ws = Some ws.
Proof.
  intros H. induction H as [|[u r t|u o] rest Hop _ IH]; simpl;
    [reflexivity | exact IH | destruct Hop].
Qed.

Lemma editFiles_frame (uris : list string) (ops : WorkspaceEdit) (ws ws' : Workspace) :
  Editor.editFiles uris ops ws = Some ws' ->
  (forall u, ~ In u uris -> ws' !! u = ws !! u)
  /\ (forall u, ws' !! u = None <-> ws !! u = None).
Proof.
  revert ws. induction uris as [|uri rest IH]; intros ws; simpl.
  - intros [= <-]. split; intros; reflexivity.
  - destruct (ws !! uri) as [content|] eqn:Hfile; [|discriminate].
    destruct (Editor.applyTextEdits content _) as [content'|]; [|discriminate].
    intros Hrest. destruct (IH _ Hrest) as [Hframe Hdom]. split.
    + intros u Hu. rewrite Hframe by tauto.
      apply lookup_insert_ne. intros ->. apply Hu. left. reflexivity.
    + intros u. rewrite Hdom.
      destruct (decide (uri = u)) as [->|Hne].
      * rewrite lookup_insert_eq, Hfile. split; discriminate.
      * rewrite lookup_insert_ne by exact Hne. reflexivity.
Qed.

Lemma editedUris_of_one_file uri (edits : list ImportEdit.t) u :
  In u (Editor.editedUris
          (map (fun e => Replace uri (ImportEdit.range e) (ImportEdit.newText e))
             edits)) ->
  u = uri.
Proof.
  unfold Editor.editedUris. intros Hin.
  apply (proj2 (list_elem_of_In _ _)) in Hin.
  apply (proj1 (elem_of_remove_dups _ _)) in Hin.
  apply (proj1 (list_elem_of_In _ _)) in Hin.
  apply in_flat_map in Hin. destruct Hin as (op & Hop & Hu).
  apply in_map_iff in Hop. destruct Hop as (e & <- & _).
  destruct Hu as [<-|[]]. reflexivity.
Qed.

(** The edits of one file leave the other files as they are, and neither
    create nor remove a file. *)
Lemma applyEdits_frame uri (edits : list ImportEdit.t) (ws : Workspace) :
  (ImportManager.applyEdits uri edits ws).1 = Ok tt
  /\ (forall u, u <> uri -> (ImportManager.applyEdits uri edits ws).2 !! u = ws !! u)
  /\ (forall u, (ImportManager.applyEdits uri edits ws).2 !! u = None
                <-> ws !! u = None).
Proof.
  unfold ImportManager.applyEdits, bind, applyEdit, ret, Editor.transaction.
  rewrite createFiles_without_creation.
  2:{ apply List.Forall_forall. intros op Hop. apply in_map_iff in Hop.
      destruct Hop as (e & <- & _). exact I. }
  destruct (Editor.editFiles _ _ ws) as [ws'|] eqn:Hrun; simpl.
  - destruct (editFiles_frame _ _ _ _ Hrun) as [Hframe Hdom].
    split; [reflexivity|]. split; [|exact Hdom].
    intros u Hu. apply Hframe. intros Hin.
    apply Hu. eapply editedUris_of_one_file, Hin.
  - split; [reflexivity|]. split; intros; reflexivity.
Qed.

(* ===================================================================== *)
(** ** The workspace under [updateImports] *)
(* ===================================================================== *)

(** What [updateImports] does for one change. *)
Lemma updateImports_step createSourceFile change (ws : Workspace) :
  let run :=
    (let* document := openTextDocument (ImportChange.uri change) in
     ImportManager.applyEdits (ImportChange.uri change)
       (ImportManager.calculateEditsForDocument createSourceFile document change))
      ws in
  (ws !! ImportChange.uri change = None ->
   run = (Throw (CannotOpen (ImportChange.uri change)), ws))
  /\ (forall u, u <> ImportChange.uri change -> run.2 !! u = ws !! u)
  /\ (forall u, run.2 !! u = None <-> ws !! u = None).
Proof.
  unfold bind, openTextDocument.
  destruct (ws !! ImportChange.uri change) as [content|] eqn:Hfile; cbn zeta.
  - split; [discriminate|].
    pose proof (applyEdits_frame (ImportChange.uri change)
                  (ImportManager.calculateEditsForDocument createSourceFile
                     {| TextDocument.fileName := ImportChange.uri change;
                        TextDocument.getText := content |} change) ws)
      as (_ & Hframe & Hdom).
    split; assumption.
  - split; [reflexivity|]. split; intros; reflexivity.
Qed.

Lemma forEach_cons {A : Type} (x : A) (rest : list A) (body : A -> M unit)
    (ws : Workspace) :
  forEach (x :: rest) body ws
  = match body x ws with
    | (Ok _, ws1) => forEach rest body ws1
    | (Throw e, ws1) => (Throw e, ws1)
    end.
Proof. reflexivity. Qed.

Lemma forEach_app {A : Type} (xs ys : list A) (body : A -> M unit) (ws : Workspace) :
  forEach (xs ++ ys) body ws
  = match forEach xs body ws with
    | (Ok _, ws1) => forEach ys body ws1
    | (Throw e, ws1) => (Throw e, ws1)
    end.
Proof.
  revert ws. induction xs as [|x rest IH]; intros ws; cbn [app forEach].
  - reflexivity.
  - unfold bind. destruct (body x ws) as [[[]|e] ws1]; [apply IH | reflexivity].
Qed.

Lemma updateImports_frame createSourceFile (listed : list ImportChange.t)
    (ws : Workspace) :
  let body := fun change =>
    let* document := openTextDocument (ImportChange.uri change) in
    ImportManager.applyEdits (ImportChange.uri change)
      (ImportManager.calculateEditsForDocument createSourceFile document change) in
  (forall u,
      ~ In u (map ImportChange.uri listed) ->
      (forEach listed body ws).2 !! u = ws !! u)
  /\ (forall u, (forEach listed body ws).2 !! u = None <-> ws !! u = None).
Proof.
  cbn zeta.
  revert ws. induction listed as [|change rest IH]; intros ws; cbn [map].
  - split; intros; reflexivity.
  - pose proof (updateImports_step createSourceFile change ws)
      as (_ & Hframe & Hdom).
    rewrite forEach_cons.
    destruct ((let* document := openTextDocument (ImportChange.uri change) in
               ImportManager.applyEdits (ImportChange.uri change)
                 (ImportManager.calculateEditsForDocument createSourceFile
                    document change)) ws) as [[[]|e] ws1];
      cbn [snd] in Hframe, Hdom; cbn beta iota.
    + destruct (IH ws1) as [Hframe' Hdom'].
      split.
      * intros u Hu. rewrite Hframe'; [apply Hframe|]; intros H; apply Hu;
          [left; symmetry; exact H | right; exact H].
      * intros u. etransitivity; [apply Hdom' | apply Hdom].
    + split.
      * intros u Hu. apply Hframe. intros ->. apply Hu. left. reflexivity.
      * exact Hdom.
Qed.

(** X9. [updateImports] changes the text of no file but the files the
    changes name, and neither creates nor removes a file, whether it
    returns or throws. *)
Theorem updateImports_touches_only_the_files_of_the_changes
    createSourceFile changes (ws : Workspace) :
  let after := (ImportManager.updateImports createSourceFile changes ws).2 in
  (forall u,
      ~ In u (map ImportChange.uri (Changes.importChanges changes)) ->
      after !! u = ws !! u)
  /\ (forall u, after !! u = None <-> ws !! u = None).
Proof.
  apply (updateImports_frame createSourceFile (Changes.importChanges changes) ws).
Qed.

(** X10. [updateImports] has no rollback: when the file of a change
    cannot be opened, it throws there, and the files that the changes in
    front of it rewrote stay rewritten. *)
Theorem updateImports_keeps_earlier_edits_on_failure
    createSourceFile earlier change later content (ws ws1 : Workspace) :
  ImportManager.updateImports createSourceFile
    {| Changes.importChanges := earlier; Changes.typeContent := content |} ws
  = (Ok tt, ws1) ->
  ws !! ImportChange.uri change = None ->
  ImportManager.updateImports createSourceFile
    {| Changes.importChanges := (earlier ++ change :: later)%list;
       Changes.typeContent := content |} ws
  = (Throw (CannotOpen (ImportChange.uri change)), ws1).
Proof.
  unfold ImportManager.updateImports. cbn [Changes.importChanges].
  intros Hearlier Hmissing.
  rewrite forEach_app, Hearlier. cbn [forEach].
  pose proof (updateImports_frame createSourceFile earlier ws) as [_ Hdom].
  cbn zeta in Hdom. rewrite Hearlier in Hdom. cbn [snd] in Hdom.
  apply Hdom in Hmissing.
  destruct (updateImports_step createSourceFile change ws1) as (Hthrow & _).
  unfold bind at 1. cbn zeta in Hthrow. rewrite (Hthrow Hmissing). reflexivity.
Qed.

Lemma updateImports_no_rollback_witness :
  ImportManager.updateImports Sample.projectParser
    {| Changes.importChanges :=
         [Sample.changeOf "/proj/b.ts" "./a" "./c.ts" "Foo" false;
          Sample.changeOf "/proj/gone.ts" "./a" "./c.ts" "Foo" false];
       Changes.typeContent := Sample.fooText |}
    Sample.project
  = (Throw (CannotOpen "/proj/gone.ts"),
     <["/proj/b.ts" := nl ++ "import { Foo } from " ++ quoted "./c.ts" ++ ";" ++ nl]>
       Sample.project).
Proof.
  apply (updateImports_keeps_earlier_edits_on_failure Sample.projectParser
           [Sample.changeOf "/proj/b.ts" "./a" "./c.ts" "Foo" false]
           (Sample.changeOf "/proj/gone.ts" "./a" "./c.ts" "Foo" false) []
           Sample.fooText Sample.project).
  - vm_compute. reflexivity.
  - reflexivity.
Defined.

(* ===================================================================== *)
(** ** The workspace under FileManager and [moveType] *)
(* ===================================================================== *)

Lemma transaction_replace_between uri (content : string) (a b : nat) newText
    (ws : Workspace) :
  ws !! uri = Some content ->
  a <= b -> b <= String.length content ->
  Editor.transaction
    [Replace uri
       (rangeOf (TextDocument.positionFrom content a 0 0)
                (TextDocument.positionFrom content b 0 0)) newText] ws
  = Some (<[uri := String.substring 0 a content ++ newText
                   ++ String.substring b (String.length content - b) content]> ws).
Proof.
  intros Hfile Hab Hb.
  unfold Editor.transaction, Editor.editedUris, Editor.textEditsFor.
  cbn [Editor.createFiles flat_map app]. cbn [remove_dups].
  destruct (decide_rel elem_of uri []) as [Hin|_]; [inversion Hin|].
  cbn [Editor.editFiles]. rewrite Hfile.
  unfold Editor.textEditsFor. cbn [flat_map app]. rewrite String.eqb_refl.
  cbn [app]. rewrite applyTextEdits_between by assumption. reflexivity.
Qed.


(** X12. [deleteTypeFromSource] throws, and changes nothing, when the
    source file cannot be opened; otherwise it removes from the file the
    text of the node, from its start to its end, and nothing else. *)
Theorem deleteTypeFromSource_removes_the_span sourceUri node (ws : Workspace) :
  Node.getStart node <= Node.getEnd node ->
  (forall text, ws !! sourceUri = Some text -> Node.getEnd node <= String.length text) ->
  FileManager.deleteTypeFromSource sourceUri node ws
  = match ws !! sourceUri with
    | None => (Throw (CannotOpen sourceUri), ws)
    | Some text =>
        (Ok tt,
         <[sourceUri := SpecMore.without (Node.getStart node) (Node.getEnd node) text]>
           ws)
    end.
Proof.
  intros Horder Hbound.
  unfold FileManager.deleteTypeFromSource, bind, openTextDocument, applyEdit, ret.
  destruct (ws !! sourceUri) as [text|] eqn:Hfile; [|reflexivity].
  unfold TextDocument.positionAt. cbn [TextDocument.getText].
  rewrite (transaction_replace_between sourceUri text _ _ "" ws Hfile Horder
             (Hbound text eq_refl)).
  reflexivity.
Qed.

Lemma deleteTypeFromSource_witness :
  FileManager.deleteTypeFromSource "/proj/a.ts" (TypeInfo.node Sample.foo)
    Sample.project
  = (Ok tt, <["/proj/a.ts" := nl]> Sample.project).
Proof.
  rewrite (deleteTypeFromSource_removes_the_span "/proj/a.ts"
             (TypeInfo.node Sample.foo) Sample.project).
  - reflexivity.
  - vm_compute. lia.
  - intros text H. vm_compute in H. injection H as <-. vm_compute. lia.
Defined.

(** X13. [moveType] removes the declaration before anything else and
    has no rollback: when the file of a reference cannot be opened, the
    command ends with the failure it caught, the source file has lost the
    declaration, and no other file has changed (the destination is not
    written). *)
Theorem moveType_keeps_the_deletion_on_failure createSourceFile cwd importManager
    selectedType document destinationUri references (ws : Workspace) :
  ws !! TextDocument.fileName document = Some (TextDocument.getText document) ->
  Node.getStart (TypeInfo.node selectedType)
  <= Node.getEnd (TypeInfo.node selectedType) ->
  Node.getEnd (TypeInfo.node selectedType)
  <= String.length (TextDocument.getText document) ->
  (exists ref, In ref references /\ ws !! Location.uri ref = None) ->
  exists error,
    MoveType.moveType createSourceFile cwd importManager selectedType document
      destinationUri references ws
    = (Ok (MoveType.Failed error),
       <[TextDocument.fileName document :=
           SpecMore.without (Node.getStart (TypeInfo.node selectedType))
             (Node.getEnd (TypeInfo.node selectedType))
             (TextDocument.getText document)]> ws).
Proof.
  intros Hfile Horder Hbound (bad & Hin & Hbad).
  unfold MoveType.moveType, tryCatch.
  unfold bind at 1. unfold applyEdit. unfold TextDocument.positionAt.
  rewrite (transaction_replace_between _ _ _ _ "" ws Hfile Horder Hbound).
  fold (SpecMore.without (Node.getStart (TypeInfo.node selectedType))
          (Node.getEnd (TypeInfo.node selectedType))
          (TextDocument.getText document)).
  set (ws1 := <[TextDocument.fileName document := _]> ws).
  assert (ws1 !! Location.uri bad = None) as Hbad1.
  { subst ws1. rewrite lookup_insert_ne; [exact Hbad|].
    intros Heq. rewrite Heq in Hfile. congruence. }
  unfold bind at 1. unfold ImportManager.calculateChanges. unfold bind at 1.
  pose proof (calculateChangesLoop_keeps_workspace createSourceFile cwd
                importManager selectedType destinationUri references [] ws1)
    as Hkeep.
  destruct (calculateChangesLoop_rejects createSourceFile cwd importManager
              selectedType destinationUri references [] ws1) as (e & He).
  { exists bad. split; assumption. }
  destruct (ImportManager.calculateChangesLoop createSourceFile cwd importManager
              selectedType destinationUri references [] ws1) as [[listed|e'] ws2];
    simpl in He, Hkeep; [discriminate|]. subst ws2.
  exists e'. reflexivity.
Qed.

Lemma moveType_no_rollback_witness :
  exists error,
    MoveType.moveType Sample.projectParser "/" Sample.projectManager Sample.foo
      (Sample.documentOf "/proj/a.ts" Sample.aText) "/proj/c.ts"
      SampleMore.strayReferences Sample.project
    = (Ok (MoveType.Failed error),
       <["/proj/a.ts" :=
           SpecMore.without 0 35 (Sample.fooText ++ nl)]> Sample.project).
Proof.
  apply (moveType_keeps_the_deletion_on_failure Sample.projectParser "/"
           Sample.projectManager Sample.foo
           (Sample.documentOf "/proj/a.ts" Sample.aText) "/proj/c.ts"
           SampleMore.strayReferences Sample.project).
  - reflexivity.
  - vm_compute. lia.
  - vm_compute. lia.
  - exists {| Location.uri := "/proj/gone.ts"; Location.range := mkRange 0 0 0 3 |}.
    split; [right; left; reflexivity | reflexivity].
Defined.

(* ===================================================================== *)
(** ** Finding a declaration *)
(* ===================================================================== *)

Lemma syntax_induction (P : Syntax.t -> Prop) :
  (forall k a b cs, Forall P cs -> P (Syntax.Tree k a b cs)) ->
  forall node, P node.
Proof.
  intros H. fix IH 1. intros [k a b cs]. apply H.
  induction cs as [|c cs IHcs]; constructor; [apply IH | exact IHcs].
Qed.

Lemma visitSelection_pick offset node selected :
  TypeFinder.visitSelection offset node selected
  = SpecMore.pick (SpecMore.typeNodeAt offset) node selected.
Proof.
  revert selected. induction node as [k a b cs IH] using syntax_induction.
  intros selected. cbn [TypeFinder.visitSelection SpecMore.pick].
  unfold SpecMore.typeNodeAt at 1.
  destruct (TypeFinder.spans offset _ && Syntax.isTypeNode _); [reflexivity|].
  revert selected. induction IH as [|c cs Hc _ IHcs]; intros selected;
    cbn [fold_left]; [reflexivity|].
  rewrite Hc. apply IHcs.
Qed.

Lemma visitNamed_pick typeName node found :
  TypeFinder.visitNamed typeName node found
  = SpecMore.pick (SpecMore.typeNodeNamed typeName) node found.
Proof.
  revert found. induction node as [k a b cs IH] using syntax_induction.
  intros found. cbn [TypeFinder.visitNamed SpecMore.pick].
  unfold SpecMore.typeNodeNamed at 1.
  destruct (Syntax.isTypeNode _ && String.eqb _ typeName); [reflexivity|].
  revert found. induction IH as [|c cs Hc _ IHcs]; intros found;
    cbn [fold_left]; [reflexivity|].
  rewrite Hc. apply IHcs.
Qed.

Lemma fold_visit_pick {A : Type} (visit : A -> Syntax.t -> option Syntax.t -> option Syntax.t)
    (wanted : A -> Syntax.t -> bool) (x : A) (roots : list Syntax.t) picked :
  (forall node found, visit x node found = SpecMore.pick (wanted x) node found) ->
  fold_left (fun found child => visit x child found) roots picked
  = SpecMore.pickAmong (wanted x) roots picked.
Proof.
  intros H. unfold SpecMore.pickAmong. revert picked.
  induction roots as [|c cs IH]; intros picked; cbn [fold_left]; [reflexivity|].
  rewrite H. apply IH.
Qed.

(** What is picked is what was picked before, or a wanted node of the
    tree. *)
Lemma pick_sound wanted node picked :
  SpecMore.pick wanted node picked = picked
  \/ exists found,
       In found (Syntax.nodes node) /\ wanted found = true
       /\ SpecMore.pick wanted node picked = Some found.
Proof.
  revert picked. induction node as [k a b cs IH] using syntax_induction.
  intros picked. cbn [SpecMore.pick Syntax.nodes].
  destruct (wanted (Syntax.Tree k a b cs)) eqn:Hw.
  - right. exists (Syntax.Tree k a b cs).
    split; [left; reflexivity|]. split; [exact Hw | reflexivity].
  - assert (fold_left (fun found child => SpecMore.pick wanted child found) cs picked
            = picked
            \/ exists found,
                 In found (flat_map Syntax.nodes cs) /\ wanted found = true
                 /\ fold_left (fun found child => SpecMore.pick wanted child found)
                      cs picked = Some found) as Hfold.
    { clear Hw. revert picked. induction IH as [|c cs' Hc _ IHcs]; intros picked;
        cbn [fold_left flat_map]; [left; reflexivity|].
      destruct (IHcs (SpecMore.pick wanted c picked))
        as [Hsame|(found & Hin & Hwanted & Hres)].
      - rewrite Hsame.
        destruct (Hc picked) as [Hc'|(found & Hin & Hwanted & Hres)].
        + left. exact Hc'.
        + right. exists found. split; [|split; assumption].
          apply in_or_app. left. exact Hin.
      - right. exists found. split; [|split; assumption].
        apply in_or_app. right. exact Hin. }
    destruct Hfold as [Hsame|(found & Hin & Hwanted & Hres)].
    + left. exact Hsame.
    + right. exists found. split; [right; exact Hin|]. split; assumption.
Qed.

Lemma pickAmong_sound wanted roots picked :
  SpecMore.pickAmong wanted roots picked = picked
  \/ exists found,
       In found (Syntax.forest roots) /\ wanted found = true
       /\ SpecMore.pickAmong wanted roots picked = Some found.
Proof.
  unfold SpecMore.pickAmong, Syntax.forest. revert picked.
  induction roots as [|c cs IH]; intros picked; cbn [fold_left flat_map];
    [left; reflexivity|].
  destruct (IH (SpecMore.pick wanted c picked))
    as [Hsame|(found & Hin & Hwanted & Hres)].
  - rewrite Hsame. destruct (pick_sound wanted c picked)
      as [Hc|(found & Hin & Hwanted & Hres)].
    + left. exact Hc.
    + right. exists found. split; [|split; assumption].
      apply in_or_app. left. exact Hin.
  - right. exists found. split; [|split; assumption].
    apply in_or_app. right. exact Hin.
Qed.

Lemma pick_keeps wanted node found :
  exists found', SpecMore.pick wanted node (Some found) = Some found'.
Proof.
  destruct (pick_sound wanted node (Some found)) as [H|(f & _ & _ & H)];
    rewrite H; eexists; reflexivity.
Qed.

Lemma pickAmong_keeps wanted roots found :
  exists found', SpecMore.pickAmong wanted roots (Some found) = Some found'.
Proof.
  destruct (pickAmong_sound wanted roots (Some found)) as [H|(f & _ & _ & H)];
    rewrite H; eexists; reflexivity.
Qed.

Lemma pick_complete wanted node picked target :
  In target (Syntax.nodes node) -> wanted target = true ->
  exists found, SpecMore.pick wanted node picked = Some found.
Proof.
  revert picked. induction node as [k a b cs IH] using syntax_induction.
  intros picked Hin Hwanted. cbn [SpecMore.pick].
  destruct (wanted (Syntax.Tree k a b cs)) eqn:Hw; [eexists; reflexivity|].
  cbn [Syntax.nodes] in Hin. destruct Hin as [<-|Hin]; [congruence|].
  clear Hw. revert picked Hin.
  induction IH as [|c cs' Hc _ IHcs]; intros picked Hin;
    cbn [flat_map] in Hin; [destruct Hin|].
  cbn [fold_left]. apply in_app_or in Hin. destruct Hin as [Hin|Hin].
  - destruct (Hc picked Hin Hwanted) as (found & ->).
    apply (pickAmong_keeps wanted cs' found).
  - apply IHcs. exact Hin.
Qed.

Lemma pickAmong_complete wanted roots picked target :
  In target (Syntax.forest roots) -> wanted target = true ->
  exists found, SpecMore.pickAmong wanted roots picked = Some found.
Proof.
  unfold Syntax.forest. revert picked.
  induction roots as [|c cs IH]; intros picked Hin Hwanted;
    cbn [flat_map] in Hin; [destruct Hin|].
  unfold SpecMore.pickAmong. cbn [fold_left].
  apply in_app_or in Hin. destruct Hin as [Hin|Hin].
  - destruct (pick_complete wanted c picked target Hin Hwanted) as (found & ->).
    apply (pickAmong_keeps wanted cs found).
  - apply (IH _ Hin Hwanted).
Qed.

Lemma pickAmong_none wanted roots :
  SpecMore.pickAmong wanted roots None = None
  <-> Forall (fun node => wanted node = false) (Syntax.forest roots).
Proof.
  split.
  - intros Hnone. apply List.Forall_forall. intros node Hin.
    destruct (wanted node) eqn:Hw; [|reflexivity].
    destruct (pickAmong_complete wanted roots None node Hin Hw) as (found & H).
    rewrite H in Hnone. discriminate.
  - intros Hall. destruct (pickAmong_sound wanted roots None)
      as [H|(found & Hin & Hw & _)]; [exact H|].
    rewrite List.Forall_forall in Hall. rewrite (Hall _ Hin) in Hw. discriminate.
Qed.

Lemma findTypeAtSelection_pick parseTree document selectionStart :
  TypeFinder.findTypeAtSelection parseTree document selectionStart
  = match SpecMore.pickAmong
            (SpecMore.typeNodeAt (TextDocument.offsetAt document selectionStart))
            (parseTree (TextDocument.fileName document)
               (TextDocument.getText document)) None with
    | None => None
    | Some selectedNode =>
        Some {| FoundType.name := Syntax.nameText selectedNode;
                FoundType.node := selectedNode;
                FoundType.dependencies := [] |}
    end.
Proof.
  unfold TypeFinder.findTypeAtSelection.
  rewrite (fold_visit_pick TypeFinder.visitSelection SpecMore.typeNodeAt).
  - reflexivity.
  - intros node found. apply visitSelection_pick.
Qed.

(** X14. What [findTypeAtSelection] returns is a node of the syntax
    tree of the document that is an interface, type alias or enum
    declaration and spans the offset of the selection; the name is the
    one of that declaration and the dependencies are empty. *)
Theorem findTypeAtSelection_returns_a_spanning_declaration
    parseTree document selectionStart found :
  TypeFinder.findTypeAtSelection parseTree document selectionStart = Some found ->
  let offset := TextDocument.offsetAt document selectionStart in
  In (FoundType.node found)
     (Syntax.forest (parseTree (TextDocument.fileName document)
                       (TextDocument.getText document)))
  /\ Syntax.isTypeNode (FoundType.node found) = true
  /\ Syntax.getStart (FoundType.node found) <= offset
     <= Syntax.getEnd (FoundType.node found)
  /\ FoundType.name found = Syntax.nameText (FoundType.node found)
  /\ FoundType.dependencies found = [].
Proof.
  rewrite findTypeAtSelection_pick. intros Hfound offset.
  destruct (pickAmong_sound
              (SpecMore.typeNodeAt (TextDocument.offsetAt document selectionStart))
              (parseTree (TextDocument.fileName document)
                 (TextDocument.getText document)) None)
    as [Hnone|(node & Hin & Hwanted & Hres)].
  - rewrite Hnone in Hfound. discriminate.
  - rewrite Hres in Hfound. injection Hfound as <-. cbn.
    unfold SpecMore.typeNodeAt, TypeFinder.spans in Hwanted.
    apply andb_true_iff in Hwanted. destruct Hwanted as [Hspan Htype].
    apply andb_true_iff in Hspan. destruct Hspan as [Ha Hb].
    apply Nat.leb_le in Ha, Hb. auto.
Qed.

Lemma findTypeAtSelection_witness :
  TypeFinder.findTypeAtSelection SampleMore.nestedParser SampleMore.nestedDocument
    {| line := 0; character := 27 |}
  = Some {| FoundType.name := "Outer";
            FoundType.node := SampleMore.outerInterface;
            FoundType.dependencies := [] |}
  /\ Syntax.isTypeNode SampleMore.outerInterface = true.
Proof.
  split; [reflexivity|].
  apply (findTypeAtSelection_returns_a_spanning_declaration SampleMore.nestedParser
           SampleMore.nestedDocument {| line := 0; character := 27 |}
           {| FoundType.name := "Outer";
              FoundType.node := SampleMore.outerInterface;
              FoundType.dependencies := [] |}).
  reflexivity.
Defined.

(** X15. [findTypeAtSelection] finds nothing exactly when no node of the
    syntax tree, at any depth, is an interface, type alias or enum
    declaration that spans the offset of the selection. *)
Theorem findTypeAtSelection_finds_nothing_iff_no_declaration_spans
    parseTree document selectionStart :
  TypeFinder.findTypeAtSelection parseTree document selectionStart = None
  <-> Forall (fun node =>
                SpecMore.typeNodeAt
                  (TextDocument.offsetAt document selectionStart) node = false)
        (Syntax.forest (parseTree (TextDocument.fileName document)
                          (TextDocument.getText document))).
Proof.
  rewrite findTypeAtSelection_pick, <- pickAmong_none.
  destruct (SpecMore.pickAmong _ _ None); split; intros H;
    try reflexivity; discriminate.
Qed.

(** X16. Among nested declarations the outer one is selected, and among
    declarations side by side the last one: when a child of the source
    file is a declaration that spans the offset, and no declaration in
    the children after it does, that child is the type found, whatever
    declarations it contains. *)
Theorem findTypeAtSelection_selects_the_outer_declaration
    parseTree document selectionStart before outer after :
  parseTree (TextDocument.fileName document) (TextDocument.getText document)
  = (before ++ outer :: after)%list ->
  SpecMore.typeNodeAt (TextDocument.offsetAt document selectionStart) outer = true ->
  Forall (fun node =>
            SpecMore.typeNodeAt
              (TextDocument.offsetAt document selectionStart) node = false)
    (Syntax.forest after) ->
  TypeFinder.findTypeAtSelection parseTree document selectionStart
  = Some {| FoundType.name := Syntax.nameText outer;
            FoundType.node := outer;
            FoundType.dependencies := [] |}.
Proof.
  intros Hparse Houter Hafter.
  rewrite findTypeAtSelection_pick, Hparse.
  unfold SpecMore.pickAmong. rewrite fold_left_app. cbn [fold_left].
  assert (forall picked,
             SpecMore.pick
               (SpecMore.typeNodeAt (TextDocument.offsetAt document selectionStart))
               outer picked = Some outer) as ->.
  { intros picked. destruct outer as [k a b cs]. cbn [SpecMore.pick].
    rewrite Houter. reflexivity. }
  fold (SpecMore.pickAmong
          (SpecMore.typeNodeAt (TextDocument.offsetAt document selectionStart))
          after (Some outer)).
  destruct (pickAmong_sound
              (SpecMore.typeNodeAt (TextDocument.offsetAt document selectionStart))
              after (Some outer)) as [->|(node & Hin & Hw & _)]; [reflexivity|].
  rewrite List.Forall_forall in Hafter. rewrite (Hafter _ Hin) in Hw. discriminate.
Qed.

Lemma findTypeAtSelection_outer_witness :
  TypeFinder.findTypeAtSelection SampleMore.nestedParser SampleMore.nestedDocument
    {| line := 0; character := 27 |}
  = Some {| FoundType.name := "Outer";
            FoundType.node := SampleMore.outerInterface;
            FoundType.dependencies := [] |}
  /\ SpecMore.typeNodeAt 27 SampleMore.innerAlias = true.
Proof.
  split; [|reflexivity].
  apply (findTypeAtSelection_selects_the_outer_declaration SampleMore.nestedParser
           SampleMore.nestedDocument {| line := 0; character := 27 |} []
           SampleMore.outerInterface [SampleMore.laterEnum]).
  - reflexivity.
  - reflexivity.
  - repeat constructor.
Defined.

Lemma findTypeInFile_pick parseTree uri typeName text (ws : Workspace) :
  ws !! uri = Some text ->
  TypeFinder.findTypeInFile parseTree uri typeName ws
  = (Ok match SpecMore.pickAmong (SpecMore.typeNodeNamed typeName)
                (parseTree uri text) None with
        | None => None
        | Some foundNode =>
            Some {| FoundType.name := typeName;
                    FoundType.node := foundNode;
                    FoundType.dependencies := [] |}
        end, ws).
Proof.
  intros Hfile. unfold TypeFinder.findTypeInFile, bind, openTextDocument.
  rewrite Hfile. cbn [TextDocument.fileName TextDocument.getText].
  rewrite (fold_visit_pick TypeFinder.visitNamed SpecMore.typeNodeNamed).
  - destruct (SpecMore.pickAmong _ _ None); reflexivity.
  - intros node found. apply visitNamed_pick.
Qed.

(** X17. On a file of the workspace [findTypeInFile] resolves and leaves
    the workspace as it was. It finds nothing exactly when no node of the
    syntax tree, at any depth, is a type declaration of that name; what it
    finds is such a declaration, under the name asked for and with no
    dependencies. *)
Theorem findTypeInFile_finds_a_declaration_of_that_name
    parseTree uri typeName text (ws : Workspace) :
  ws !! uri = Some text ->
  exists result,
    TypeFinder.findTypeInFile parseTree uri typeName ws = (Ok result, ws)
    /\ (result = None
        <-> Forall (fun node => SpecMore.typeNodeNamed typeName node = false)
              (Syntax.forest (parseTree uri text)))
    /\ (forall found, result = Some found ->
          FoundType.name found = typeName
          /\ In (FoundType.node found) (Syntax.forest (parseTree uri text))
          /\ Syntax.isTypeNode (FoundType.node found) = true
          /\ Syntax.nameText (FoundType.node found) = typeName
          /\ FoundType.dependencies found = []).
Proof.
  intros Hfile. rewrite (findTypeInFile_pick _ _ _ _ _ Hfile).
  eexists. split; [reflexivity|]. split.
  - rewrite <- pickAmong_none.
    destruct (SpecMore.pickAmong _ _ None); split; intros H;
      try reflexivity; discriminate.
  - intros found Hfound.
    destruct (pickAmong_sound (SpecMore.typeNodeNamed typeName)
                (parseTree uri text) None)
      as [Hnone|(node & Hin & Hwanted & Hres)].
    + rewrite Hnone in Hfound. discriminate.
    + rewrite Hres in Hfound. injection Hfound as <-. cbn.
      unfold SpecMore.typeNodeNamed in Hwanted.
      apply andb_true_iff in Hwanted. destruct Hwanted as [Htype Hname].
      apply String.eqb_eq in Hname. auto.
Qed.

Lemma findTypeInFile_witness :
  exists result,
    TypeFinder.findTypeInFile SampleMore.nestedParser "/proj/n.ts" "Inner"
      {[ "/proj/n.ts" := SampleMore.nestedText ]}
    = (Ok result, {[ "/proj/n.ts" := SampleMore.nestedText ]})
    /\ result <> None.
Proof.
  assert (({[ "/proj/n.ts" := SampleMore.nestedText ]} : Workspace) !! "/proj/n.ts"
          = Some SampleMore.nestedText) as Hfile by reflexivity.
  destruct (findTypeInFile_finds_a_declaration_of_that_name SampleMore.nestedParser
              "/proj/n.ts" "Inner" SampleMore.nestedText
              {[ "/proj/n.ts" := SampleMore.nestedText ]} Hfile)
    as (result & Hrun & Hnone & _).
  exists result. split; [exact Hrun|].
  intros H. apply Hnone in H.
  apply (proj1 (List.Forall_forall _ _)) with (x := SampleMore.innerAlias) in H.
  - discriminate H.
  - cbn. tauto.
Defined.

(* ===================================================================== *)
(** ** The dependencies of a declaration *)
(* ===================================================================== *)

Lemma includes_In dependencies typeName :
  TypeAnalyzer.includes dependencies typeName = true <-> In typeName dependencies.
Proof.
  unfold TypeAnalyzer.includes. rewrite existsb_exists. split.
  - intros (x & Hin & Heq). apply String.eqb_eq in Heq. subst x. exact Hin.
  - intros Hin. exists typeName. split; [exact Hin | apply String.eqb_refl].
Qed.

Lemma NoDup_push (dependencies : list string) typeName :
  ~ In typeName dependencies -> List.NoDup dependencies ->
  List.NoDup (dependencies ++ [typeName])%list.
Proof.
  intros Hnew Hnodup.
  apply (Permutation_NoDup (l := typeName :: dependencies)).
  - apply Permutation_cons_append.
  - constructor; assumption.
Qed.

Lemma collects_refl nodes dependencies :
  SpecMore.referencedNames nodes = [] ->
  SpecMore.collects nodes dependencies dependencies.
Proof.
  intros Hnone. split; [auto|]. intros typeName. rewrite Hnone. cbn. tauto.
Qed.

Lemma collects_trans nodes1 nodes2 a b c :
  SpecMore.collects nodes1 a b -> SpecMore.collects nodes2 b c ->
  SpecMore.collects (nodes1 ++ nodes2)%list a c.
Proof.
  intros [Hnodup1 Hin1] [Hnodup2 Hin2]. split; [auto|].
  intros typeName. unfold SpecMore.referencedNames in *.
  rewrite flat_map_app, in_app_iff, Hin2, Hin1. tauto.
Qed.

Lemma visitor_fold_collects children :
  Forall (fun child =>
            forall dependencies,
              SpecMore.collects (Syntax.nodes child) dependencies
                (TypeAnalyzer.visitor child dependencies)) children ->
  forall dependencies,
    SpecMore.collects (flat_map Syntax.nodes children) dependencies
      (fold_left (fun collected child => TypeAnalyzer.visitor child collected)
         children dependencies).
Proof.
  induction 1 as [|child rest Hchild _ IH]; intros dependencies;
    cbn [fold_left flat_map].
  - apply collects_refl. reflexivity.
  - eapply collects_trans; [apply Hchild | apply IH].
Qed.

Lemma visitor_collects node dependencies :
  SpecMore.collects (Syntax.nodes node) dependencies
    (TypeAnalyzer.visitor node dependencies).
Proof.
  revert dependencies. induction node as [k a b cs IH] using syntax_induction.
  intros dependencies. cbn [TypeAnalyzer.visitor Syntax.nodes].
  change (Syntax.Tree k a b cs :: flat_map Syntax.nodes cs)
    with ([Syntax.Tree k a b cs] ++ flat_map Syntax.nodes cs)%list.
  eapply collects_trans; [|apply visitor_fold_collects; exact IH].
  destruct k as [n|n|n|typeName|]; try (apply collects_refl; reflexivity).
  destruct (TypeAnalyzer.includes dependencies typeName) eqn:Hincluded.
  - apply includes_In in Hincluded. split; [auto|].
    intros x. cbn. split; [tauto|]. intros [H|[<-|[]]]; assumption.
  - assert (~ In typeName dependencies) as Hnew.
    { intros Hin. apply includes_In in Hin. congruence. }
    split; [apply NoDup_push; exact Hnew|].
    intros x. rewrite in_app_iff. cbn. tauto.
Qed.

(** X18. The dependencies [analyzeDependencies] collects hold no name
    twice, and a name is among them exactly when a type reference with
    that name occurs below the declaration, at any depth. *)
Theorem analyzeDependencies_collects_each_referenced_name_once typeInfo :
  List.NoDup (TypeAnalyzer.analyzeDependencies typeInfo)
  /\ forall typeName,
       In typeName (TypeAnalyzer.analyzeDependencies typeInfo)
       <-> In typeName
             (SpecMore.referencedNames
                (flat_map Syntax.nodes (Syntax.children (FoundType.node typeInfo)))).
Proof.
  unfold TypeAnalyzer.analyzeDependencies.
  destruct (visitor_fold_collects (Syntax.children (FoundType.node typeInfo)))
    with (dependencies := @nil string) as [Hnodup Hin].
  - apply List.Forall_forall. intros child _ dependencies. apply visitor_collects.
  - split; [apply Hnodup; constructor|].
    intros typeName. rewrite Hin. cbn. tauto.
Qed.

Example dependencies_of_the_inner_alias :
  TypeAnalyzer.analyzeDependencies
    {| FoundType.name := "Inner"; FoundType.node := SampleMore.innerAlias;
       FoundType.dependencies := [] |}
  = ["Foo"; "Bar"].
Proof. reflexivity. Qed.

(* ===================================================================== *)
(** ** Validation *)
(* ===================================================================== *)

Lemma conflict_fold typeName nodes hasConflict :
  fold_left (TypeAnalyzer.conflictStep typeName) nodes hasConflict = false
  <-> hasConflict = false
      /\ Forall (fun node => SpecMore.typeNodeNamed typeName node = false) nodes.
Proof.
  revert hasConflict. induction nodes as [|node rest IH]; intros hasConflict;
    cbn [fold_left].
  - split; [intros H; split; [exact H | constructor] | intros [H _]; exact H].
  - rewrite IH. unfold TypeAnalyzer.conflictStep.
    fold (SpecMore.typeNodeNamed typeName node).
    destruct (SpecMore.typeNodeNamed typeName node) eqn:Hnode.
    + split; [intros [H _]; discriminate|].
      intros [_ H]. apply List.Forall_inv in H. congruence.
    + split.
      * intros [H Hrest]. split; [exact H | constructor; assumption].
      * intros [H Hall]. split; [exact H | exact (List.Forall_inv_tail Hall)].
Qed.

(** X19. [validateMove] never rejects and writes nothing. It accepts the
    move, returning [undefined], exactly when the destination can be
    opened and none of the children of its source file is a type
    declaration of the name of the moved type; a destination that cannot
    be opened is a reason to refuse. *)
Theorem validateMove_accepts_iff_destination_opens_without_the_name
    parseTree messageOf typeInfo destinationUri (ws : Workspace) :
  exists verdict,
    TypeAnalyzer.validateMove parseTree messageOf typeInfo destinationUri ws
    = (Ok verdict, ws)
    /\ (verdict = None
        <-> exists text,
              ws !! destinationUri = Some text
              /\ Forall (fun node =>
                           SpecMore.typeNodeNamed (FoundType.name typeInfo) node
                           = false)
                   (parseTree destinationUri text)).
Proof.
  unfold TypeAnalyzer.validateMove, tryCatch, bind, openTextDocument.
  destruct (ws !! destinationUri) as [text|] eqn:Hfile.
  - cbn [TextDocument.getText].
    destruct (fold_left (TypeAnalyzer.conflictStep (FoundType.name typeInfo))
                (parseTree destinationUri text) false) eqn:Hfold.
    + eexists. split; [reflexivity|]. split; [discriminate|].
      intros (text' & Htext & Hall). injection Htext as <-.
      assert (fold_left (TypeAnalyzer.conflictStep (FoundType.name typeInfo))
                (parseTree destinationUri text) false = false) as Hno.
      { apply conflict_fold. split; [reflexivity | exact Hall]. }
      congruence.
    + eexists. split; [reflexivity|]. split; [|reflexivity].
      intros _. exists text. split; [reflexivity|].
      apply conflict_fold in Hfold. apply Hfold.
  - eexists. split; [reflexivity|]. split; [discriminate|].
    intros (text & Htext & _). discriminate.
Qed.

Lemma validateReference_cases ignoredFolders isUntitled errors ref (ws : Workspace) :
  exists more,
    ReferenceAnalyzer.validateReference ignoredFolders isUntitled errors ref ws
    = (Ok (errors ++ more)%list, ws)
    /\ length more <= 1
    /\ (more = [] <-> SpecMore.acceptable ignoredFolders isUntitled ws ref).
Proof.
  unfold ReferenceAnalyzer.validateReference, SpecMore.acceptable.
  destruct (existsb _ ignoredFolders) eqn:Hignored.
  - eexists. split; [reflexivity|]. split; [cbn; lia|].
    split; [discriminate|]. intros [H _]. discriminate.
  - unfold tryCatch, bind, openTextDocument.
    destruct (ws !! Location.uri ref) as [text|] eqn:Hfile.
    + cbn [TextDocument.fileName].
      destruct (isUntitled (Location.uri ref)) eqn:Huntitled.
      * eexists. split; [reflexivity|]. split; [cbn; lia|].
        split; [discriminate|]. intros (_ & _ & H). discriminate.
      * exists []. rewrite app_nil_r. split; [reflexivity|]. split; [cbn; lia|].
        split; [|reflexivity]. intros _. repeat split. discriminate.
    + eexists. split; [reflexivity|]. split; [cbn; lia|].
      split; [discriminate|]. intros (_ & H & _). congruence.
Qed.

Lemma validateReferencesLoop_cases ignoredFolders isUntitled references :
  forall errors (ws : Workspace),
  exists more,
    ReferenceAnalyzer.validateReferencesLoop ignoredFolders isUntitled
      references errors ws
    = (Ok (errors ++ more)%list, ws)
    /\ length more <= length references
    /\ (more = []
        <-> Forall (SpecMore.acceptable ignoredFolders isUntitled ws) references).
Proof.
  induction references as [|ref rest IH]; intros errors ws;
    cbn [ReferenceAnalyzer.validateReferencesLoop].
  - exists []. rewrite app_nil_r. split; [reflexivity|]. split; [cbn; lia|].
    split; [constructor | reflexivity].
  - destruct (validateReference_cases ignoredFolders isUntitled errors ref ws)
      as (one & Hone & Hlen1 & Hiff1).
    unfold bind at 1. rewrite Hone.
    destruct (IH (errors ++ one)%list ws) as (more & Hmore & Hlen & Hiff).
    rewrite Hmore. exists (one ++ more)%list.
    split; [rewrite app_assoc; reflexivity|].
    split; [rewrite length_app; cbn [length]; lia|].
    split.
    + intros Hnil. apply app_eq_nil in Hnil. destruct Hnil as [H1 H2].
      constructor; [apply Hiff1; exact H1 | apply Hiff; exact H2].
    + intros Hall. inversion Hall; subst.
      rewrite (proj2 Hiff1), (proj2 Hiff) by assumption. reflexivity.
Qed.

(** X20. [validateReferences] never rejects and leaves the workspace as
    it was. It reports at most one error for each reference, and none
    exactly when every reference is in a document of the workspace that
    is saved and whose path contains no ignored folder name as a
    substring. *)
Theorem validateReferences_reports_unusable_references
    ignoredFolders isUntitled references (ws : Workspace) :
  exists errors,
    ReferenceAnalyzer.validateReferences ignoredFolders isUntitled references ws
    = (Ok errors, ws)
    /\ length errors <= length references
    /\ (errors = []
        <-> Forall (SpecMore.acceptable ignoredFolders isUntitled ws) references).
Proof.
  unfold ReferenceAnalyzer.validateReferences.
  destruct (validateReferencesLoop_cases ignoredFolders isUntitled references [] ws)
    as (more & Hrun & Hlen & Hiff).
  exists more. auto.
Qed.

(** The folder names are looked for anywhere in the path: a file of a
    folder [distance] is refused for the ignored folder [dist]. *)
Example ignored_folder_is_a_substring_test :
  ReferenceAnalyzer.validateReferences ["node_modules"; "dist"] (fun _ => false)
    [{| Location.uri := "/proj/src/distance/a.ts";
        Location.range := mkRange 0 0 0 0 |}]
    {[ "/proj/src/distance/a.ts" := "export {}" ]}
  = (Ok ["Reference found in ignored folder: /proj/src/distance/a.ts"],
     {[ "/proj/src/distance/a.ts" := "export {}" ]}).
Proof. reflexivity. Qed.

(* ===================================================================== *)
(** ** More on path aliases *)
(* ===================================================================== *)

Lemma matchEntries_empty_targets cwd absoluteBaseUrl file
    (before after : PathResolver.PathsTable) pattern :
  Forall (fun entry : string * list string =>
            exists t ts,
              entry.2 = t :: ts
              /\ Js.startsWith file
                   (Path.resolve cwd [absoluteBaseUrl; Js.stripTrailingStar t])
                 = false) before ->
  PathResolver.matchEntries cwd absoluteBaseUrl file
    (before ++ (pattern, []) :: after)%list
  = Throw TypeError.
Proof.
  intros Hbefore.
  induction Hbefore as [|[p targets] rest (t & ts & Ht & Hmiss) _ IH];
    cbn [app PathResolver.matchEntries].
  - reflexivity.
  - simpl in Ht. subst targets. rewrite Hmiss. exact IH.
Qed.

(** X21. A pattern with an empty list of targets makes the resolver
    throw: when no pattern in front of it matches the file,
    [tryMatchPathAlias] ends in a [TypeError], and so does
    [resolveImportPath], for every importing file. *)
Theorem alias_without_targets_throws
    cwd self baseUrl configDir before pattern after file fromPath :
  PathResolver.paths self = Some (before ++ (pattern, []) :: after)%list ->
  PathResolver.baseUrl self = Some baseUrl -> baseUrl <> "" ->
  PathResolver.configDir self = Some configDir -> configDir <> "" ->
  Forall (fun entry : string * list string =>
            exists t ts,
              entry.2 = t :: ts
              /\ Js.startsWith file
                   (Spec.aliasDirectory cwd configDir baseUrl t) = false)
         before ->
  PathResolver.tryMatchPathAlias cwd self file = Throw TypeError
  /\ PathResolver.resolveImportPath cwd self fromPath file = Throw TypeError.
Proof.
  intros Hpaths Hbase Hbase' Hdir Hdir' Hbefore.
  assert (PathResolver.tryMatchPathAlias cwd self file = Throw TypeError) as Hthrow.
  { unfold PathResolver.tryMatchPathAlias. rewrite Hpaths, Hbase, Hdir.
    apply String.eqb_neq in Hbase', Hdir'.
    unfold Js.truthy. rewrite Hbase', Hdir'. cbn [negb andb].
    apply matchEntries_empty_targets. exact Hbefore. }
  split; [exact Hthrow|].
  unfold PathResolver.resolveImportPath. rewrite Hthrow. reflexivity.
Qed.

Lemma alias_without_targets_witness :
  PathResolver.resolveImportPath "/"
    {| PathResolver.baseUrl := Some "./src";
       PathResolver.paths := Some [("@lib/*", ["lib/*"]); ("@/*", [])];
       PathResolver.configDir := Some "/root" |}
    "/root/src/b.ts" "/root/src/utils/helper.ts"
  = Throw TypeError.
Proof.
  apply (alias_without_targets_throws "/"
           {| PathResolver.baseUrl := Some "./src";
              PathResolver.paths := Some [("@lib/*", ["lib/*"]); ("@/*", [])];
              PathResolver.configDir := Some "/root" |}
           "./src" "/root" [("@lib/*", ["lib/*"])] "@/*" []
           "/root/src/utils/helper.ts" "/root/src/b.ts").
  - reflexivity.
  - reflexivity.
  - discriminate.
  - reflexivity.
  - discriminate.
  - constructor; [|constructor]. exists "lib/*", []. split; reflexivity.
Defined.

Lemma startsWith_empty s : Js.startsWith s "" = true.
Proof. destruct s; reflexivity. Qed.

(** X22. A pattern made of stars alone, such as the catch-all [*], makes
    [shouldPreserveImportType] answer true for every import path,
    relative ones included. *)
Theorem star_pattern_preserves_every_import self paths pattern importPath fromPath :
  PathResolver.paths self = Some paths ->
  In pattern (map fst paths) ->
  JsMore.removeStars pattern = "" ->
  ImportStyle.shouldPreserveImportType self importPath fromPath = true.
Proof.
  intros Hpaths Hin Hstars. unfold ImportStyle.shouldPreserveImportType.
  rewrite Hpaths. apply existsb_exists.
  apply in_map_iff in Hin. destruct Hin as (entry & Hfst & Hin).
  exists entry. split; [exact Hin|].
  cbn zeta. rewrite Hfst, Hstars. apply startsWith_empty.
Qed.

Lemma star_pattern_witness :
  ImportStyle.shouldPreserveImportType
    {| PathResolver.baseUrl := Some "./src";
       PathResolver.paths := Some [("@/*", ["*"]); ("*", ["vendor/*"])];
       PathResolver.configDir := Some "/root" |}
    "./a" "/root/src/b.ts"
  = true.
Proof.
  apply (star_pattern_preserves_every_import _ [("@/*", ["*"]); ("*", ["vendor/*"])] "*").
  - reflexivity.
  - cbn. tauto.
  - reflexivity.
Defined.
